(** * Route optimisation front end: orchestration layer

    A shallow embedding of the JavaScript orchestration code of the
    repository:

    - [src/services/api.js]            (module [Api]): the HTTP adapters, the
      text-flow and map-flow orchestrators and the liveness probe;
    - [frontend/src/services/api.js]   (module [FrontendApi]): the second copy
      of the adapters that lives in the repository, with its own error
      translation and its own validation gate;
    - [frontend/src/App.jsx]           (modules [AppText] and [AppMap]): the
      two versions of the workflow state controller.

    Asynchronous functions are modelled in a reader/state/error monad: the
    reader is the remote service (an oracle answering each request), the state
    is the log of requests that reached the transport client, and the error is
    the JavaScript value that was thrown. *)

From Stdlib Require Import Floats.PrimFloat ZArith NArith Ascii String.
From stdpp Require Import base option list strings.

Set Warnings "-register-all".
Local Open Scope Z_scope.

(** ** JavaScript values *)

(** A property read in JavaScript gives [undefined] when the property is
    missing and may give [null]; both are "nullish", both are falsy. *)
Inductive nullable (A : Type) : Type :=
| Undefined
| Null
| Value (a : A).
Arguments Undefined {A}.
Arguments Null {A}.
Arguments Value {A} a.

(** [x ?? d] *)
Definition nullish_coalesce {A} (x : nullable A) (d : A) : A :=
  match x with
  | Value a => a
  | Undefined | Null => d
  end.

(** Strings are sequences of UTF-16 code units. *)
Abbreviation jsstring := (list N) (only parsing).

(** A string literal of the source (ASCII only). *)
Definition lit (s : string) : jsstring :=
  Ascii.N_of_ascii <$> list_ascii_of_string s.

(** [!s] for a string [s]: only the empty string is falsy. *)
Definition string_falsy (s : jsstring) : bool :=
  match s with
  | [] => true
  | _ :: _ => false
  end.

(** [s || d] for a string [s]. *)
Definition string_or (s d : jsstring) : jsstring :=
  if string_falsy s then d else s.

(** [x || d] where [x] is a string, [null] or [undefined]. *)
Definition nullable_string_or (x : nullable jsstring) (d : jsstring) : jsstring :=
  match x with
  | Value s => string_or s d
  | Undefined | Null => d
  end.

(** ECMAScript [WhiteSpace] and [LineTerminator] code points, the characters
    that [String.prototype.trim] strips. *)
Definition is_white_space (c : N) : bool :=
  ((c =? 0x0009) || (c =? 0x000A) || (c =? 0x000B) || (c =? 0x000C) ||
   (c =? 0x000D) || (c =? 0x0020) || (c =? 0x00A0) || (c =? 0x1680) ||
   ((0x2000 <=? c) && (c <=? 0x200A)) ||
   (c =? 0x2028) || (c =? 0x2029) || (c =? 0x202F) || (c =? 0x205F) ||
   (c =? 0x3000) || (c =? 0xFEFF))%N.

Fixpoint trimStart (s : jsstring) : jsstring :=
  match s with
  | [] => []
  | c :: s' => if is_white_space c then trimStart s' else s
  end.

Definition trimEnd (s : jsstring) : jsstring :=
  reverse (trimStart (reverse s)).

(** [s.trim()] *)
Definition trim (s : jsstring) : jsstring := trimEnd (trimStart s).

(** Opaque JSON bodies that the layer passes through without reading. *)
Inductive JsValue : Type :=
| JsUndefined
| JsNull
| JsBool (b : bool)
| JsNumber (x : float)
| JsString (s : jsstring)
| JsArray (items : list JsValue)
| JsObject (fields : list (jsstring * JsValue)).

Definition jsstring_eqb (a b : jsstring) : bool := bool_decide (a = b).

Fixpoint assoc_field (k : jsstring) (fields : list (jsstring * JsValue)) : option JsValue :=
  match fields with
  | [] => None
  | (k', v) :: rest => if jsstring_eqb k k' then Some v else assoc_field k rest
  end.

(** [v.k] for an object [v]; [None] when [v] has no own property [k]. *)
Definition get_field (k : jsstring) (v : JsValue) : option JsValue :=
  match v with
  | JsObject fields => assoc_field k fields
  | _ => None
  end.

Definition has_status_field (v : JsValue) : Prop :=
  is_Some (get_field (lit "status") v).

(** ** Data model *)

(** A location record as it travels on the wire:
    [{ name, lat, lon, visit_sequence? }]. *)
Record Location : Type := mkLocation {
  name : jsstring;
  lat : float;
  lon : float;
  visit_sequence : nullable Z;
}.

(** Body of a successful [/extract-sequence] response, as far as the code
    reads it. *)
Record ExtractionResult : Type := mkExtractionResult {
  parsed_locations : nullable (list Location);
}.

(** Body of an error response: [error.response.data], of which only [detail]
    is read. The field is modelled for the bodies whose [detail] is a string,
    [null] or missing; a [detail] of another JSON type (a list, an object) has
    no counterpart here, and no statement below is about such a body. *)
Record ErrorBody : Type := mkErrorBody {
  detail : nullable jsstring;
}.

Record ErrorResponse : Type := mkErrorResponse {
  status : Z;
  data : nullable ErrorBody;
}.

(** The values that are thrown: [Error] objects. An error made by the
    transport client carries the response when one was received; an error
    made with [new Error(msg)] carries none. *)
Record JsError : Type := mkJsError {
  message : jsstring;
  response : option ErrorResponse;
}.

(** [new Error(msg)] *)
Definition new_Error (msg : jsstring) : JsError :=
  {| message := msg; response := None |}.

(** [error.response?.data?.detail] *)
Definition response_detail (error : JsError) : nullable jsstring :=
  match response error with
  | None => Undefined
  | Some r =>
      match data r with
      | Value body => detail body
      | Undefined | Null => Undefined
      end
  end.

(** ** The transport client and the remote service *)

(** A request that reached the transport client. *)
Inductive Request : Type :=
| PostExtractSequence (request_text : jsstring)
| PostOptimizeRoute (payload : list Location)
| GetHealth.

Inductive Reply (A : Type) : Type :=
| Fulfilled (body : A)
| Rejected (error : JsError).
Arguments Fulfilled {A} body.
Arguments Rejected {A} error.

(** The remote service: what it answers to each call, given the calls made
    before it. *)
Record Server : Type := mkServer {
  extract_sequence_reply : list Request -> jsstring -> Reply ExtractionResult;
  optimize_route_reply : list Request -> list Location -> Reply JsValue;
  health_reply : list Request -> Reply JsValue;
}.

Inductive Outcome (A : Type) : Type :=
| Resolved (a : A)
| Thrown (error : JsError).
Arguments Resolved {A} a.
Arguments Thrown {A} error.

(** An asynchronous computation: it reads the service, appends to the log of
    requests, and resolves or throws. *)
Definition Async (A : Type) : Type :=
  Server -> list Request -> Outcome A * list Request.

Definition ret {A} (a : A) : Async A :=
  fun _ calls => (Resolved a, calls).

Definition throw {A} (error : JsError) : Async A :=
  fun _ calls => (Thrown error, calls).

Definition bind {A B} (m : Async A) (k : A -> Async B) : Async B :=
  fun srv calls =>
    match m srv calls with
    | (Resolved a, calls') => k a srv calls'
    | (Thrown error, calls') => (Thrown error, calls')
    end.

(** [try { m } catch (error) { h error }] *)
Definition try_catch {A} (m : Async A) (h : JsError -> Async A) : Async A :=
  fun srv calls =>
    match m srv calls with
    | (Resolved a, calls') => (Resolved a, calls')
    | (Thrown error, calls') => h error srv calls'
    end.

Declare Scope async_scope.
Delimit Scope async_scope with async.
Notation "'let*' x ':=' m 'in' k" := (bind m (fun x => k))
  (at level 10, x name, m at level 100, k at level 200, only parsing) : async_scope.

Definition of_reply {A} (r : Reply A) : Outcome A :=
  match r with
  | Fulfilled body => Resolved body
  | Rejected error => Thrown error
  end.

(** [api.post("/extract-sequence", { request_text })], yielding
    [response.data]. *)
Definition post_extract_sequence (request_text : jsstring) : Async ExtractionResult :=
  fun srv calls =>
    (of_reply (extract_sequence_reply srv calls request_text),
     calls ++ [PostExtractSequence request_text]).

(** [api.post("/optimize-route", { parsed_locations })] *)
Definition post_optimize_route (payload : list Location) : Async JsValue :=
  fun srv calls =>
    (of_reply (optimize_route_reply srv calls payload),
     calls ++ [PostOptimizeRoute payload]).

(** [api.get("/health")] *)
Definition get_health : Async JsValue :=
  fun srv calls =>
    (of_reply (health_reply srv calls), calls ++ [GetHealth]).

(** The payloads of the optimisation requests in a log, oldest first. *)
Definition optimize_payloads (calls : list Request) : list (list Location) :=
  omap (fun r => match r with PostOptimizeRoute p => Some p | _ => None end) calls.

(** [array.length < 2] *)
Definition fewer_than_two {A} (l : list A) : bool :=
  bool_decide (length l < 2)%nat.

(** The value [processLogisticsRequest] resolves to:
    [{ extracted, optimized }]. *)
Record LogisticsResult : Type := mkLogisticsResult {
  extracted : ExtractionResult;
  optimized : JsValue;
}.

(** ** [src/services/api.js] *)

Module Api.
Local Open Scope async_scope.

(** No [catch] here: a failure of the call is thrown to the caller as the
    transport client made it. *)
Definition extractSequence (requestText : jsstring) : Async ExtractionResult :=
  let* data := post_extract_sequence requestText in
  ret data.

(** The callback of [parsedLocations.map] in [optimizeRoute]. *)
Definition optimizeRoute_entry (index : nat) (loc : Location) : Location :=
  {| name := name loc;
     lat := lat loc;
     lon := lon loc;
     visit_sequence :=
       Value (nullish_coalesce (visit_sequence loc) (Z.of_nat index + 1)) |}.

Definition optimizeRoute (parsedLocations : list Location) : Async JsValue :=
  let payload := imap optimizeRoute_entry parsedLocations in
  let* data := post_optimize_route payload in
  ret data.

Definition processLogisticsRequest (requestText : jsstring) : Async LogisticsResult :=
  let* extracted := extractSequence requestText in
  match parsed_locations extracted with
  | Undefined | Null =>
      throw (new_Error (lit "At least two locations are required."))
  | Value locations =>
      if fewer_than_two locations
      then throw (new_Error (lit "At least two locations are required."))
      else
        let* optimized := optimizeRoute locations in
        ret {| extracted := extracted; optimized := optimized |}
  end.

(** The callback of [locations.map] in [optimizeFromMap]. *)
Definition optimizeFromMap_entry (index : nat) (loc : Location) : Location :=
  {| name := name loc;
     lat := lat loc;
     lon := lon loc;
     visit_sequence := Value (Z.of_nat index + 1) |}.

Definition optimizeFromMap (locations : nullable (list Location)) : Async JsValue :=
  match locations with
  | Undefined | Null =>
      throw (new_Error (lit "Select at least two locations."))
  | Value locations =>
      if fewer_than_two locations
      then throw (new_Error (lit "Select at least two locations."))
      else
        let enrichedLocations := imap optimizeFromMap_entry locations in
        optimizeRoute enrichedLocations
  end.

(** [{ status: "offline" }] *)
Definition offline : JsValue :=
  JsObject [(lit "status", JsString (lit "offline"))].

Definition healthCheck : Async JsValue :=
  try_catch
    (let* data := get_health in ret data)
    (fun _ => ret offline).
End Api.

(** ** [frontend/src/services/api.js] *)

Module FrontendApi.
Local Open Scope async_scope.

Definition extract_fallback : jsstring :=
  lit "Failed to extract locations from your request. Please try again.".

Definition optimize_fallback : jsstring :=
  lit "Failed to optimize route. Please check your input and try again.".

Definition extractSequence (requestText : jsstring) : Async ExtractionResult :=
  try_catch
    (let* data := post_extract_sequence requestText in ret data)
    (fun error =>
       throw (new_Error (nullable_string_or (response_detail error) extract_fallback))).

(** The list is sent as it was received. *)
Definition optimizeRoute (parsedLocations : list Location) : Async JsValue :=
  try_catch
    (let* data := post_optimize_route parsedLocations in ret data)
    (fun error =>
       throw (new_Error (nullable_string_or (response_detail error) optimize_fallback))).

(** [array.length === 0] *)
Definition is_empty {A} (l : list A) : bool :=
  bool_decide (length l = 0%nat).

Definition processLogisticsRequest (requestText : jsstring) : Async LogisticsResult :=
  try_catch
    (let* extractedData := extractSequence requestText in
     match parsed_locations extractedData with
     | Undefined | Null =>
         throw (new_Error (lit "No locations found in your request. Please provide city names."))
     | Value locations =>
         if is_empty locations
         then throw (new_Error (lit "No locations found in your request. Please provide city names."))
         else
           let* optimizedRoute := optimizeRoute locations in
           ret {| extracted := extractedData; optimized := optimizedRoute |}
     end)
    (fun error => throw error).

(** [{ status: 'offline', error: error.message }] *)
Definition offline (error : JsError) : JsValue :=
  JsObject [(lit "status", JsString (lit "offline"));
            (lit "error", JsString (message error))].

Definition healthCheck : Async JsValue :=
  try_catch
    (let* data := get_health in ret data)
    (fun error => ret (offline error)).
End FrontendApi.

(** ** [frontend/src/App.jsx]: the workflow state controller *)

Inductive Stage : Type := input | processing | results.

(** *** First version: text flow only *)

Module AppText.
(** The [useState] cells of [App]. *)
Record WorkflowState : Type := mkWorkflowState {
  query : jsstring;
  loading : bool;
  error : nullable jsstring;
  extractedLocations : nullable (list Location);
  optimizationResult : JsValue;
  stage : Stage;
}.

Definition initial : WorkflowState :=
  {| query := []; loading := false; error := Null;
     extractedLocations := Null; optimizationResult := JsNull;
     stage := input |}.

Definition setQuery (v : jsstring) (st : WorkflowState) : WorkflowState :=
  {| query := v; loading := loading st; error := error st;
     extractedLocations := extractedLocations st;
     optimizationResult := optimizationResult st; stage := stage st |}.

Definition setLoading (v : bool) (st : WorkflowState) : WorkflowState :=
  {| query := query st; loading := v; error := error st;
     extractedLocations := extractedLocations st;
     optimizationResult := optimizationResult st; stage := stage st |}.

Definition setError (v : nullable jsstring) (st : WorkflowState) : WorkflowState :=
  {| query := query st; loading := loading st; error := v;
     extractedLocations := extractedLocations st;
     optimizationResult := optimizationResult st; stage := stage st |}.

Definition setExtractedLocations (v : nullable (list Location)) (st : WorkflowState)
  : WorkflowState :=
  {| query := query st; loading := loading st; error := error st;
     extractedLocations := v;
     optimizationResult := optimizationResult st; stage := stage st |}.

Definition setOptimizationResult (v : JsValue) (st : WorkflowState) : WorkflowState :=
  {| query := query st; loading := loading st; error := error st;
     extractedLocations := extractedLocations st;
     optimizationResult := v; stage := stage st |}.

Definition setStage (v : Stage) (st : WorkflowState) : WorkflowState :=
  {| query := query st; loading := loading st; error := error st;
     extractedLocations := extractedLocations st;
     optimizationResult := optimizationResult st; stage := v |}.

(** [handleSubmit], over the [processLogisticsRequest] it imports. A call
    that throws before its first [await] and one that rejects later both
    enter the [catch] block: both are [Thrown]. *)
Definition handleSubmit
    (processLogisticsRequest : jsstring -> Async LogisticsResult)
    (srv : Server) (st : WorkflowState) (calls : list Request)
  : WorkflowState * list Request :=
  if string_falsy (trim (query st)) then
    (setError (Value (lit "Please enter a logistics request")) st, calls)
  else
    let st :=
      setOptimizationResult JsNull
        (setExtractedLocations Null
           (setStage processing (setError Null (setLoading true st)))) in
    let '(outcome, calls) := processLogisticsRequest (query st) srv calls in
    let st :=
      match outcome with
      | Resolved result =>
          setStage results
            (setOptimizationResult (optimized result)
               (setExtractedLocations (parsed_locations (extracted result)) st))
      | Thrown err =>
          setStage input (setError (Value (message err)) st)
      end in
    (setLoading false st, calls).

Definition handleReset (st : WorkflowState) : WorkflowState :=
  setStage input
    (setError Null
       (setOptimizationResult JsNull
          (setExtractedLocations Null (setQuery [] st)))).
End AppText.

(** *** Second version: text flow and map flow *)

Module AppMap.
Record WorkflowState : Type := mkWorkflowState {
  query : jsstring;
  loading : bool;
  error : nullable jsstring;
  extractedLocations : nullable (list Location);
  optimizationResult : JsValue;
  stage : Stage;
  showMap : bool;
}.

Definition initial : WorkflowState :=
  {| query := []; loading := false; error := Null;
     extractedLocations := Null; optimizationResult := JsNull;
     stage := input; showMap := false |}.

Definition setQuery (v : jsstring) (st : WorkflowState) : WorkflowState :=
  {| query := v; loading := loading st; error := error st;
     extractedLocations := extractedLocations st;
     optimizationResult := optimizationResult st; stage := stage st;
     showMap := showMap st |}.

Definition setLoading (v : bool) (st : WorkflowState) : WorkflowState :=
  {| query := query st; loading := v; error := error st;
     extractedLocations := extractedLocations st;
     optimizationResult := optimizationResult st; stage := stage st;
     showMap := showMap st |}.

Definition setError (v : nullable jsstring) (st : WorkflowState) : WorkflowState :=
  {| query := query st; loading := loading st; error := v;
     extractedLocations := extractedLocations st;
     optimizationResult := optimizationResult st; stage := stage st;
     showMap := showMap st |}.

Definition setExtractedLocations (v : nullable (list Location)) (st : WorkflowState)
  : WorkflowState :=
  {| query := query st; loading := loading st; error := error st;
     extractedLocations := v;
     optimizationResult := optimizationResult st; stage := stage st;
     showMap := showMap st |}.

Definition setOptimizationResult (v : JsValue) (st : WorkflowState) : WorkflowState :=
  {| query := query st; loading := loading st; error := error st;
     extractedLocations := extractedLocations st;
     optimizationResult := v; stage := stage st;
     showMap := showMap st |}.

Definition setStage (v : Stage) (st : WorkflowState) : WorkflowState :=
  {| query := query st; loading := loading st; error := error st;
     extractedLocations := extractedLocations st;
     optimizationResult := optimizationResult st; stage := v;
     showMap := showMap st |}.

Definition setShowMap (v : bool) (st : WorkflowState) : WorkflowState :=
  {| query := query st; loading := loading st; error := error st;
     extractedLocations := extractedLocations st;
     optimizationResult := optimizationResult st; stage := stage st;
     showMap := v |}.

(** The part of [handleSubmit] and [handleMapOptimization] that runs before
    the [try]: loading on, error and results cleared, stage [processing]. *)
Definition start_processing (st : WorkflowState) : WorkflowState :=
  setOptimizationResult JsNull
    (setExtractedLocations Null
       (setStage processing (setError Null (setLoading true st)))).

(** [handleSubmit], over the [processLogisticsRequest] it imports. A call
    that throws before its first [await] and one that rejects later both
    enter the [catch] block: both are [Thrown]. *)
Definition handleSubmit
    (processLogisticsRequest : jsstring -> Async LogisticsResult)
    (srv : Server) (st : WorkflowState) (calls : list Request)
  : WorkflowState * list Request :=
  if string_falsy (trim (query st)) then
    (setError (Value (lit "Please enter a logistics request")) st, calls)
  else
    let st := start_processing st in
    let '(outcome, calls) := processLogisticsRequest (query st) srv calls in
    let st :=
      match outcome with
      | Resolved result =>
          setStage results
            (setOptimizationResult (optimized result)
               (setExtractedLocations (parsed_locations (extracted result)) st))
      | Thrown err =>
          setStage input
            (setError (Value (string_or (message err) (lit "Something went wrong"))) st)
      end in
    (setLoading false st, calls).

(** [handleMapOptimization], over the [optimizeRoute] it imports. *)
Definition handleMapOptimization
    (optimizeRoute : list Location -> Async JsValue)
    (locations : list Location)
    (srv : Server) (st : WorkflowState) (calls : list Request)
  : WorkflowState * list Request :=
  let st := setShowMap false st in
  let st := start_processing st in
  let '(outcome, calls) := optimizeRoute locations srv calls in
  let st :=
    match outcome with
    | Resolved optimized =>
        setStage results
          (setOptimizationResult optimized
             (setExtractedLocations (Value locations) st))
    | Thrown err =>
        setStage input
          (setError (Value (string_or (message err) (lit "Route optimization failed"))) st)
    end in
  (setLoading false st, calls).

Definition handleReset (st : WorkflowState) : WorkflowState :=
  setStage input
    (setError Null
       (setOptimizationResult JsNull
          (setExtractedLocations Null (setQuery [] st)))).
End AppMap.

(** ** Statements shared by the two copies of the adapters *)

(** What a normalising [optimizeRoute] transmits: one request whose payload
    has the input's length and order, entry [i] keeping an explicit
    [visit_sequence] and receiving [i + 1] when it is missing or [null]. *)
Definition transmits_normalised
    (optimizeRoute : list Location -> Async JsValue) : Prop :=
  forall (srv : Server) (calls : list Request) (locations : list Location),
    exists payload : list Location,
      (optimizeRoute locations srv calls).2 = calls ++ [PostOptimizeRoute payload] /\
      length payload = length locations /\
      forall (i : nat) (loc : Location),
        locations !! i = Some loc ->
        exists sent : Location,
          payload !! i = Some sent /\
          name sent = name loc /\ lat sent = lat loc /\ lon sent = lon loc /\
          visit_sequence sent =
            match visit_sequence loc with
            | Value n => Value n
            | Undefined | Null => Value (Z.of_nat i + 1)
            end.

(** What a forwarding [optimizeRoute] transmits: the list as it is. *)
Definition transmits_unchanged
    (optimizeRoute : list Location -> Async JsValue) : Prop :=
  forall (srv : Server) (calls : list Request) (locations : list Location),
    (optimizeRoute locations srv calls).2 = calls ++ [PostOptimizeRoute locations].

(** Extraction answered, with fewer than two locations (a missing or [null]
    list counts as none). *)
Definition few_locations (ex : ExtractionResult) : Prop :=
  match parsed_locations ex with
  | Value locations => (length locations < 2)%nat
  | Undefined | Null => True
  end.

(** The fail-fast gate of the text flow: when extraction succeeds with fewer
    than two locations, the error with the given message is thrown and the
    extraction request is the only one that was sent. *)
Definition gates_below_two
    (processLogisticsRequest : jsstring -> Async LogisticsResult) : Prop :=
  forall (srv : Server) (calls : list Request) (text : jsstring)
         (ex : ExtractionResult),
    extract_sequence_reply srv calls text = Fulfilled ex ->
    few_locations ex ->
    processLogisticsRequest text srv calls =
      (Thrown (new_Error (lit "At least two locations are required.")),
       calls ++ [PostExtractSequence text]).

(** The message the specification expects after a failed remote call: the
    detail of the response when there is one, the fallback otherwise. *)
Definition detail_else (error : JsError) (fallback : jsstring) : jsstring :=
  match response_detail error with
  | Value d => d
  | Undefined | Null => fallback
  end.

(** An [extractSequence] and an [optimizeRoute] that surface the detail of
    every failed call, with the given fallbacks. *)
Definition surfaces_detail
    (extractSequence : jsstring -> Async ExtractionResult)
    (optimizeRoute : list Location -> Async JsValue)
    (extract_fallback optimize_fallback : jsstring) : Prop :=
  (forall srv calls text error,
     extract_sequence_reply srv calls text = Rejected error ->
     exists raised,
       (extractSequence text srv calls).1 = Thrown raised /\
       message raised = detail_else error extract_fallback) /\
  (forall srv calls locations error,
     (forall payload, optimize_route_reply srv calls payload = Rejected error) ->
     exists raised,
       (optimizeRoute locations srv calls).1 = Thrown raised /\
       message raised = detail_else error optimize_fallback).

(** A [healthCheck] that resolves, whatever the service does, to an object
    with a [status] field. *)
Definition always_resolves_with_status (healthCheck : Async JsValue) : Prop :=
  forall (srv : Server) (calls : list Request),
    exists v : JsValue,
      (healthCheck srv calls).1 = Resolved v /\ has_status_field v.

(** ** Sample data *)

Definition locA : Location :=
  {| name := lit "A"; lat := 1%float; lon := 1%float; visit_sequence := Undefined |}.

Definition locB : Location :=
  {| name := lit "B"; lat := 2%float; lon := 2%float; visit_sequence := Undefined |}.

Definition locC : Location :=
  {| name := lit "C"; lat := 3%float; lon := 3%float; visit_sequence := Value 7 |}.

(** A location that claims the second place for itself. *)
Definition locTwo : Location :=
  {| name := lit "D"; lat := 4%float; lon := 4%float; visit_sequence := Value 2 |}.

(** "Delhi" between a space and a line break followed by a space. *)
Definition padded_query : jsstring := (0x20 :: lit "Delhi" ++ [0x0A; 0x20])%N.

(** A service that gives the same three answers whatever it is asked. *)
Definition constant_server (ex : Reply ExtractionResult) (opt health : Reply JsValue)
  : Server :=
  {| extract_sequence_reply := fun _ _ => ex;
     optimize_route_reply := fun _ _ => opt;
     health_reply := fun _ => health |}.

(** A service in good health that extracts the given locations. *)
Definition healthy_server (locations : nullable (list Location)) : Server :=
  constant_server
    (Fulfilled {| parsed_locations := locations |})
    (Fulfilled (JsObject [(lit "total_distance", JsNumber 10%float)]))
    (Fulfilled (JsObject [(lit "status", JsString (lit "healthy"))])).

(** A service whose [/health] answers 200 with the body [{}]. *)
Definition statusless_server : Server :=
  constant_server
    (Fulfilled {| parsed_locations := Null |})
    (Fulfilled JsNull)
    (Fulfilled (JsObject [])).

(** A service whose every call fails with the given error. *)
Definition failing_server (error : JsError) : Server :=
  constant_server (Rejected error) (Rejected error) (Rejected error).

(** The transport client's error for a response with status 500. *)
Definition error_500 (body : nullable ErrorBody) : JsError :=
  {| message := lit "Request failed with status code 500";
     response := Some {| status := 500; data := body |} |}.

(** Status 500 with body [{ detail: "optimizer unavailable" }]. *)
Definition optimizer_unavailable : JsError :=
  error_500 (Value {| detail := Value (lit "optimizer unavailable") |}).

(** Status 500 with body [{ detail: "" }]. *)
Definition empty_detail : JsError :=
  error_500 (Value {| detail := Value [] |}).

(** The transport client's error when no response arrived in time. *)
Definition timeout_error : JsError :=
  {| message := lit "timeout of 60000ms exceeded"; response := None |}.

(** ** [frontend/src/components/QueryInput.jsx] *)

Module QueryInput.
(** The two properties of the keyboard event that the component reads. *)
Record KeyboardEvent : Type := mkKeyboardEvent {
  key : jsstring;
  shiftKey : bool;
}.

(** [handleKeyPress], over the [onSubmit] it was given: Enter without Shift
    submits (the [preventDefault] only stops the line break), every other key
    is left to the text area. *)
Definition handleKeyPress {W : Type} (onSubmit : W -> W) (e : KeyboardEvent) (w : W) : W :=
  if bool_decide (key e = lit "Enter") && negb (shiftKey e)
  then onSubmit w
  else w.

(** [disabled={disabled}] on the text area. *)
Definition textarea_disabled (disabled : bool) : bool := disabled.

(** [disabled={disabled || !query.trim()}] on the button. *)
Definition button_disabled (query : jsstring) (disabled : bool) : bool :=
  disabled || string_falsy (trim query).
End QueryInput.

(** ** [frontend/src/App.jsx], first version: what is rendered, and the
    events of the controls *)

(** [x && ...] for a cell that holds a string or [null]. *)
Definition truthy_string (x : nullable jsstring) : bool :=
  match x with
  | Value s => negb (string_falsy s)
  | Undefined | Null => false
  end.

(** [x && ...] for a cell that holds an array or [null]: every array is
    truthy, the empty one too. *)
Definition truthy_array {A} (x : nullable (list A)) : bool :=
  match x with
  | Value _ => true
  | Undefined | Null => false
  end.

(** [a === b] on stages. *)
Definition stage_is (a b : Stage) : bool :=
  match a, b with
  | input, input | processing, processing | results, results => true
  | _, _ => false
  end.

Module AppTextUI.
Import AppText.

Definition exampleQueries : list jsstring :=
  [ lit "Start from Delhi, visit Mumbai, Bangalore, and Chennai, then end at Kolkata";
    lit "I want to travel from delhi to deliver order at pune, jodhpur, banglore, mumbai and jaipur";
    lit "Begin at Pune, then go to Hyderabad, after that Jaipur, and finally return to Pune" ].

(** The conditions of the JSX: which blocks are rendered, and which of the
    two controls of [QueryInput] are disabled. *)
Record View : Type := mkView {
  textarea_disabled : bool;
  button_disabled : bool;
  examples_shown : bool;
  locations_shown : bool;
  reset_shown : bool;
  error_shown : bool;
  loading_shown : bool;
  results_shown : bool;
  welcome_shown : bool;
}.

Definition render (st : WorkflowState) : View :=
  {| textarea_disabled := QueryInput.textarea_disabled (loading st);
     button_disabled := QueryInput.button_disabled (query st) (loading st);
     examples_shown := stage_is (stage st) input;
     locations_shown := truthy_array (extractedLocations st);
     reset_shown := stage_is (stage st) results;
     error_shown := truthy_string (error st);
     loading_shown := loading st;
     results_shown := stage_is (stage st) results && negb (loading st);
     welcome_shown :=
       stage_is (stage st) input && negb (loading st) && negb (truthy_string (error st)) |}.

(** What the user can do to the page. *)
Inductive Event : Type :=
| ChangeQuery (value : jsstring)            (* typing in the text area *)
| KeyPress (e : QueryInput.KeyboardEvent)   (* a key pressed in the text area *)
| ClickSubmit                               (* the button of [QueryInput] *)
| ClickExample (i : nat)                    (* the [i]-th example query *)
| ClickReset                                (* "Start New Request" *)
| DismissError.                             (* [onDismiss] of the error display *)

(** An event can happen when its control is rendered and not disabled. *)
Definition enabled (st : WorkflowState) (ev : Event) : bool :=
  let v := render st in
  match ev with
  | ChangeQuery _ | KeyPress _ => negb (textarea_disabled v)
  | ClickSubmit => negb (button_disabled v)
  | ClickExample i => examples_shown v && bool_decide (i < length exampleQueries)%nat
  | ClickReset => reset_shown v
  | DismissError => error_shown v
  end.

Definition World : Type := WorkflowState * list Request.

Definition submit (processLogisticsRequest : jsstring -> Async LogisticsResult)
    (srv : Server) (w : World) : World :=
  handleSubmit processLogisticsRequest srv w.1 w.2.

(** The handler that each event runs. *)
Definition handle (processLogisticsRequest : jsstring -> Async LogisticsResult)
    (srv : Server) (ev : Event) (w : World) : World :=
  match ev with
  | ChangeQuery value => (setQuery value w.1, w.2)
  | KeyPress e => QueryInput.handleKeyPress (submit processLogisticsRequest srv) e w
  | ClickSubmit => submit processLogisticsRequest srv w
  | ClickExample i =>
      match exampleQueries !! i with
      | Some example => (setQuery example w.1, w.2)
      | None => w
      end
  | ClickReset => (handleReset w.1, w.2)
  | DismissError => (setError Null w.1, w.2)
  end.

(** The pages that the user can reach from the first one. *)
Inductive reachable (processLogisticsRequest : jsstring -> Async LogisticsResult)
    (srv : Server) : World -> Prop :=
| reachable_initial :
    reachable processLogisticsRequest srv (initial, [])
| reachable_event (w : World) (ev : Event) :
    reachable processLogisticsRequest srv w ->
    enabled w.1 ev = true ->
    reachable processLogisticsRequest srv (handle processLogisticsRequest srv ev w).

(** The state that [handleSubmit] leaves while the request is under way. *)
Definition in_flight (st : WorkflowState) : WorkflowState :=
  setOptimizationResult JsNull
    (setExtractedLocations Null
       (setStage processing (setError Null (setLoading true st)))).

(** What holds of every page at rest. *)
Record at_rest (st : WorkflowState) : Prop := mkAtRest {
  rest_loading : loading st = false;
  rest_stage : stage st <> processing;
  rest_input :
    stage st = input ->
    extractedLocations st = Null /\ optimizationResult st = JsNull;
  rest_results :
    stage st = results ->
    exists locations, extractedLocations st = Value locations /\ locations <> [];
}.
End AppTextUI.

(** ** Facts about the string helpers *)

Definition blank (s : jsstring) : Prop :=
  Forall (fun c => is_white_space c = true) s.

Lemma trimStart_nil (s : jsstring) : trimStart s = [] <-> blank s.
Proof.
  unfold blank. induction s as [|c s IH]; simpl.
  - split; [constructor | reflexivity].
  - destruct (is_white_space c) eqn:Hc.
    + rewrite IH, Forall_cons. tauto.
    + split; [discriminate |].
      intros H. apply Forall_cons in H as [H _]. congruence.
Qed.

Lemma trimStart_blank (s : jsstring) : blank (trimStart s) <-> blank s.
Proof.
  unfold blank. induction s as [|c s IH]; simpl; [tauto |].
  destruct (is_white_space c) eqn:Hc; [| tauto].
  rewrite IH, Forall_cons. tauto.
Qed.

Lemma reverse_eq_nil {A} (l : list A) : reverse l = [] <-> l = [].
Proof.
  split; intros H; [| subst; apply reverse_nil].
  apply (f_equal length) in H. rewrite length_reverse in H.
  destruct l; [reflexivity | discriminate].
Qed.

(** [!s.trim()] holds exactly for the strings made of white space only. *)
Lemma trim_falsy_iff_blank (s : jsstring) :
  string_falsy (trim s) = true <-> blank s.
Proof.
  assert (Hf : forall t : jsstring, string_falsy t = true <-> t = []).
  { intros [|? ?]; simpl; split; congruence. }
  rewrite Hf. unfold trim, trimEnd.
  rewrite reverse_eq_nil, trimStart_nil.
  unfold blank at 1. rewrite Forall_reverse. apply trimStart_blank.
Qed.

Lemma string_or_nonempty (s d : jsstring) : d <> [] -> string_or s d <> [].
Proof. intros Hd. unfold string_or. destruct s; simpl; [exact Hd | discriminate]. Qed.

(** ** The route optimisation adapter *)

Lemma Api_optimizeRoute_run (locations : list Location) (srv : Server)
    (calls : list Request) :
  Api.optimizeRoute locations srv calls =
    (of_reply (optimize_route_reply srv calls (imap Api.optimizeRoute_entry locations)),
     calls ++ [PostOptimizeRoute (imap Api.optimizeRoute_entry locations)]).
Proof.
  unfold Api.optimizeRoute, bind, post_optimize_route, ret.
  destruct (of_reply _); reflexivity.
Qed.

Lemma FrontendApi_optimizeRoute_calls (locations : list Location) (srv : Server)
    (calls : list Request) :
  (FrontendApi.optimizeRoute locations srv calls).2 =
    calls ++ [PostOptimizeRoute locations].
Proof.
  unfold FrontendApi.optimizeRoute, try_catch, bind, post_optimize_route, ret, throw.
  destruct (of_reply _); reflexivity.
Qed.

Lemma Api_optimizeRoute_normalises : transmits_normalised Api.optimizeRoute.
Proof.
  intros srv calls locations.
  exists (imap Api.optimizeRoute_entry locations).
  rewrite Api_optimizeRoute_run. split; [reflexivity |].
  split; [apply length_imap |].
  intros i loc Hi. exists (Api.optimizeRoute_entry i loc).
  rewrite list_lookup_imap, Hi. simpl.
  repeat split. destruct (visit_sequence loc); reflexivity.
Qed.

(** C1 (as amended). [optimizeRoute] of [src/services/api.js] sends one
    request that keeps the input order, keeps every explicit, non-null
    [visit_sequence] and gives entry [i] the value [i + 1] otherwise;
    [optimizeRoute] of [frontend/src/services/api.js] sends the list
    unchanged, so a missing [visit_sequence] stays missing. *)
Theorem C1_optimizeRoute_payload :
  transmits_normalised Api.optimizeRoute /\
  transmits_unchanged FrontendApi.optimizeRoute.
Proof.
  split; [apply Api_optimizeRoute_normalises |].
  intros srv calls locations. apply FrontendApi_optimizeRoute_calls.
Qed.

(** C1, as stated, fails for the copy in [frontend/src/services/api.js]:
    [optimizeRoute([{name: "A", lat: 1, lon: 1}])] transmits the entry without
    a [visit_sequence], not with [visit_sequence = 1]. *)
Lemma C1_frontend_optimizeRoute_not_normalised :
  ~ transmits_normalised FrontendApi.optimizeRoute.
Proof.
  intros H.
  destruct (H (healthy_server Null) [] [locA]) as (payload & Hcalls & _ & Hentry).
  rewrite FrontendApi_optimizeRoute_calls in Hcalls.
  injection Hcalls as <-.
  destruct (Hentry 0%nat locA eq_refl) as (sent & Hsent & _ & _ & _ & Hseq).
  injection Hsent as <-. discriminate Hseq.
Qed.

(** ** The text-flow orchestrator *)

Lemma Api_extractSequence_run (text : jsstring) (srv : Server) (calls : list Request) :
  Api.extractSequence text srv calls =
    (of_reply (extract_sequence_reply srv calls text),
     calls ++ [PostExtractSequence text]).
Proof.
  unfold Api.extractSequence, bind, post_extract_sequence, ret.
  destruct (of_reply _); reflexivity.
Qed.

Lemma FrontendApi_extractSequence_ok (text : jsstring) (srv : Server)
    (calls : list Request) (ex : ExtractionResult) :
  extract_sequence_reply srv calls text = Fulfilled ex ->
  FrontendApi.extractSequence text srv calls =
    (Resolved ex, calls ++ [PostExtractSequence text]).
Proof.
  intros Hex.
  unfold FrontendApi.extractSequence, try_catch, bind, post_extract_sequence, ret.
  rewrite Hex. reflexivity.
Qed.

Lemma fewer_than_two_true {A} (l : list A) :
  (length l < 2)%nat -> fewer_than_two l = true.
Proof. intros H. unfold fewer_than_two. apply bool_decide_eq_true_2, H. Qed.

Lemma fewer_than_two_false {A} (l : list A) :
  (2 <= length l)%nat -> fewer_than_two l = false.
Proof. intros H. unfold fewer_than_two. apply bool_decide_eq_false_2. lia. Qed.

Lemma Api_processLogisticsRequest_gate : gates_below_two Api.processLogisticsRequest.
Proof.
  intros srv calls text ex Hex Hfew.
  unfold Api.processLogisticsRequest, bind.
  rewrite Api_extractSequence_run, Hex. simpl.
  unfold few_locations in Hfew.
  destruct (parsed_locations ex) as [| |locations]; try reflexivity.
  rewrite (fewer_than_two_true _ Hfew). reflexivity.
Qed.

(** The gate of [frontend/src/services/api.js]: a missing, [null] or empty
    list is rejected, with its own message, after the extraction request
    alone. *)
Lemma FrontendApi_processLogisticsRequest_none (srv : Server) (calls : list Request)
    (text : jsstring) (ex : ExtractionResult) :
  extract_sequence_reply srv calls text = Fulfilled ex ->
  match parsed_locations ex with
  | Value locations => locations = []
  | Undefined | Null => True
  end ->
  FrontendApi.processLogisticsRequest text srv calls =
    (Thrown (new_Error
               (lit "No locations found in your request. Please provide city names.")),
     calls ++ [PostExtractSequence text]).
Proof.
  intros Hex Hnone.
  unfold FrontendApi.processLogisticsRequest, try_catch, bind.
  rewrite (FrontendApi_extractSequence_ok _ _ _ _ Hex).
  destruct (parsed_locations ex) as [| |locations]; try reflexivity.
  subst locations. reflexivity.
Qed.

(** With one location or more, that copy goes on to the optimiser. *)
Lemma FrontendApi_processLogisticsRequest_some (srv : Server) (calls : list Request)
    (text : jsstring) (ex : ExtractionResult) (loc : Location) (rest : list Location) :
  extract_sequence_reply srv calls text = Fulfilled ex ->
  parsed_locations ex = Value (loc :: rest) ->
  (FrontendApi.processLogisticsRequest text srv calls).2 =
    calls ++ [PostExtractSequence text; PostOptimizeRoute (loc :: rest)].
Proof.
  intros Hex Hlocs.
  unfold FrontendApi.processLogisticsRequest, try_catch, bind.
  rewrite (FrontendApi_extractSequence_ok _ _ _ _ Hex), Hlocs.
  unfold FrontendApi.is_empty. simpl.
  pose proof (FrontendApi_optimizeRoute_calls (loc :: rest) srv
                (calls ++ [PostExtractSequence text])) as Hcalls.
  destruct (FrontendApi.optimizeRoute _ srv _) as [[optimized | error] calls'];
    simpl in *; subst calls'; unfold ret, throw; simpl;
    rewrite <- app_assoc; reflexivity.
Qed.

(** C2 (as amended). In [src/services/api.js], when extraction succeeds with
    fewer than two locations, [processLogisticsRequest] throws the error
    "At least two locations are required." and no optimisation request is
    sent. In [frontend/src/services/api.js] the gate rejects only a missing
    or empty list, with the message "No locations found in your request.
    Please provide city names."; with one location the optimiser is called. *)
Theorem C2_processLogisticsRequest_gate :
  gates_below_two Api.processLogisticsRequest /\
  (forall srv calls text ex,
     extract_sequence_reply srv calls text = Fulfilled ex ->
     (match parsed_locations ex with
      | Value locations => locations = []
      | Undefined | Null => True
      end ->
      FrontendApi.processLogisticsRequest text srv calls =
        (Thrown (new_Error
                   (lit "No locations found in your request. Please provide city names.")),
         calls ++ [PostExtractSequence text])) /\
     (forall loc,
        parsed_locations ex = Value [loc] ->
        (FrontendApi.processLogisticsRequest text srv calls).2 =
          calls ++ [PostExtractSequence text; PostOptimizeRoute [loc]])).
Proof.
  split; [apply Api_processLogisticsRequest_gate |].
  intros srv calls text ex Hex. split.
  - apply FrontendApi_processLogisticsRequest_none, Hex.
  - intros loc Hloc. eapply FrontendApi_processLogisticsRequest_some; eassumption.
Qed.

Lemma C2_processLogisticsRequest_gate_witness :
  Api.processLogisticsRequest (lit "Delhi") (healthy_server (Value [locA])) [] =
    (Thrown (new_Error (lit "At least two locations are required.")),
     [PostExtractSequence (lit "Delhi")]) /\
  FrontendApi.processLogisticsRequest (lit "nowhere") (healthy_server (Value [])) [] =
    (Thrown (new_Error
               (lit "No locations found in your request. Please provide city names.")),
     [PostExtractSequence (lit "nowhere")]) /\
  (FrontendApi.processLogisticsRequest (lit "Delhi") (healthy_server (Value [locA])) []).2 =
    [PostExtractSequence (lit "Delhi"); PostOptimizeRoute [locA]].
Proof.
  destruct C2_processLogisticsRequest_gate as [Hgate Hfront].
  split; [| split].
  - apply (Hgate (healthy_server (Value [locA])) [] (lit "Delhi")
             {| parsed_locations := Value [locA] |}).
    + reflexivity.
    + unfold few_locations. simpl. lia.
  - apply (Hfront (healthy_server (Value [])) [] (lit "nowhere")
             {| parsed_locations := Value [] |} eq_refl).
    reflexivity.
  - apply (Hfront (healthy_server (Value [locA])) [] (lit "Delhi")
             {| parsed_locations := Value [locA] |} eq_refl).
    reflexivity.
Defined.

(** C2, as stated, fails for the copy in [frontend/src/services/api.js]:
    when extraction yields the single location A, the optimiser is called and
    the operation resolves. *)
Lemma C2_frontend_one_location_reaches_optimizer :
  ~ gates_below_two FrontendApi.processLogisticsRequest.
Proof.
  intros H.
  specialize (H (healthy_server (Value [locA])) [] (lit "Delhi")
                {| parsed_locations := Value [locA] |} eq_refl).
  assert (Hfew : few_locations {| parsed_locations := Value [locA] |}).
  { unfold few_locations. simpl. lia. }
  specialize (H Hfew). vm_compute in H. discriminate H.
Qed.

Lemma C1_optimizeRoute_payload_witness :
  (exists sent,
     (Api.optimizeRoute [locA; locC; locB] (healthy_server Null) []).2 =
       [PostOptimizeRoute sent] /\
     visit_sequence <$> sent = [Value 1; Value 7; Value 3] /\
     name <$> sent = [lit "A"; lit "C"; lit "B"]) /\
  (FrontendApi.optimizeRoute [locA; locC; locB] (healthy_server Null) []).2 =
    [PostOptimizeRoute [locA; locC; locB]].
Proof.
  destruct C1_optimizeRoute_payload as [Hnew Hold].
  split; [| apply (Hold (healthy_server Null) [] [locA; locC; locB])].
  destruct (Hnew (healthy_server Null) [] [locA; locC; locB])
    as (payload & Hcalls & Hlen & Hentry).
  exists payload. split; [exact Hcalls |].
  destruct (Hentry 0%nat locA eq_refl) as (s0 & H0 & Hn0 & _ & _ & Hv0).
  destruct (Hentry 1%nat locC eq_refl) as (s1 & H1 & Hn1 & _ & _ & Hv1).
  destruct (Hentry 2%nat locB eq_refl) as (s2 & H2 & Hn2 & _ & _ & Hv2).
  destruct payload as [|p0 [|p1 [|p2 [|p3 rest]]]]; try discriminate Hlen.
  simpl in H0, H1, H2.
  injection H0 as ->. injection H1 as ->. injection H2 as ->.
  simpl. rewrite Hv0, Hv1, Hv2, Hn0, Hn1, Hn2. split; reflexivity.
Defined.

(** ** The map-flow orchestrator *)

(** The entries that [optimizeFromMap] builds all carry a sequence number, so
    [optimizeRoute] sends them as they are. *)
Lemma Api_optimizeRoute_entry_enriched (locations : list Location) :
  imap Api.optimizeRoute_entry (imap Api.optimizeFromMap_entry locations) =
  imap Api.optimizeFromMap_entry locations.
Proof.
  apply list_eq. intros i.
  rewrite !list_lookup_imap.
  destruct (locations !! i) as [loc|]; reflexivity.
Qed.

(** C3. For a list of at least two locations, [optimizeFromMap] is a call of
    [optimizeRoute] (the adapter of the text flow) on the list in which entry
    [i] has [visit_sequence = i + 1], whatever it had before, and the request
    sent carries exactly these entries, in input order. *)
Theorem C3_optimizeFromMap_sequence (srv : Server) (calls : list Request)
    (locations : list Location) :
  (2 <= length locations)%nat ->
  let enriched := imap Api.optimizeFromMap_entry locations in
  Api.optimizeFromMap (Value locations) srv calls =
    Api.optimizeRoute enriched srv calls /\
  (Api.optimizeFromMap (Value locations) srv calls).2 =
    calls ++ [PostOptimizeRoute enriched] /\
  length enriched = length locations /\
  forall (i : nat) (loc : Location),
    locations !! i = Some loc ->
    enriched !! i =
      Some {| name := name loc; lat := lat loc; lon := lon loc;
              visit_sequence := Value (Z.of_nat i + 1) |}.
Proof.
  intros Hlen enriched. subst enriched.
  unfold Api.optimizeFromMap. rewrite (fewer_than_two_false _ Hlen).
  split; [reflexivity |].
  rewrite Api_optimizeRoute_run, Api_optimizeRoute_entry_enriched.
  split; [reflexivity |].
  split; [apply length_imap |].
  intros i loc Hi. rewrite list_lookup_imap, Hi. reflexivity.
Qed.

(** Scenario C: for [{name: "A", lat: 1, lon: 1}, {name: "B", lat: 2, lon: 2}]
    the adapter sends the sequence numbers 1 and 2, in this order; a sequence
    number that was there before (7, for C) is overwritten. *)
Lemma C3_optimizeFromMap_sequence_witness :
  (Api.optimizeFromMap (Value [locA; locB]) (healthy_server Null) []).2 =
    [PostOptimizeRoute
       [ {| name := lit "A"; lat := 1%float; lon := 1%float; visit_sequence := Value 1 |};
         {| name := lit "B"; lat := 2%float; lon := 2%float; visit_sequence := Value 2 |} ]] /\
  imap Api.optimizeFromMap_entry [locB; locC] !! 1%nat =
    Some {| name := lit "C"; lat := 3%float; lon := 3%float; visit_sequence := Value 2 |}.
Proof.
  split.
  - assert (Hlen : (2 <= length [locA; locB])%nat) by (simpl; lia).
    destruct (C3_optimizeFromMap_sequence (healthy_server Null) [] [locA; locB] Hlen)
      as (_ & Hcalls & _ & _).
    exact Hcalls.
  - assert (Hlen : (2 <= length [locB; locC])%nat) by (simpl; lia).
    destruct (C3_optimizeFromMap_sequence (healthy_server Null) [] [locB; locC] Hlen)
      as (_ & _ & _ & Hentry).
    exact (Hentry 1%nat locC eq_refl).
Defined.

(** C6. For a list of fewer than two locations, [optimizeFromMap] throws the
    error "Select at least two locations." and the log of requests is the one
    it started with: nothing was sent. *)
Theorem C6_optimizeFromMap_gate (srv : Server) (calls : list Request)
    (locations : list Location) :
  (length locations < 2)%nat ->
  Api.optimizeFromMap (Value locations) srv calls =
    (Thrown (new_Error (lit "Select at least two locations.")), calls).
Proof.
  intros Hlen. unfold Api.optimizeFromMap.
  rewrite (fewer_than_two_true _ Hlen). reflexivity.
Qed.

Lemma C6_optimizeFromMap_gate_witness :
  Api.optimizeFromMap (Value [locA]) (healthy_server Null) [GetHealth] =
    (Thrown (new_Error (lit "Select at least two locations.")), [GetHealth]).
Proof.
  apply (C6_optimizeFromMap_gate (healthy_server Null) [GetHealth] [locA]).
  simpl. lia.
Defined.

(** C10. With [null] or [undefined] for the list, [optimizeFromMap] does what
    it does for the empty list: it throws the error
    "Select at least two locations." and sends nothing. *)
Theorem C10_optimizeFromMap_nullish (srv : Server) (calls : list Request) :
  Api.optimizeFromMap Null srv calls = Api.optimizeFromMap (Value []) srv calls /\
  Api.optimizeFromMap Undefined srv calls = Api.optimizeFromMap (Value []) srv calls /\
  Api.optimizeFromMap (Value []) srv calls =
    (Thrown (new_Error (lit "Select at least two locations.")), calls).
Proof. repeat split. Qed.

(** ** Errors of the remote calls *)

Lemma FrontendApi_extractSequence_failed (srv : Server) (calls : list Request)
    (text : jsstring) (error : JsError) :
  extract_sequence_reply srv calls text = Rejected error ->
  FrontendApi.extractSequence text srv calls =
    (Thrown (new_Error
               (nullable_string_or (response_detail error) FrontendApi.extract_fallback)),
     calls ++ [PostExtractSequence text]).
Proof.
  intros Hrej.
  unfold FrontendApi.extractSequence, try_catch, bind, post_extract_sequence.
  rewrite Hrej. reflexivity.
Qed.

Lemma FrontendApi_optimizeRoute_failed (srv : Server) (calls : list Request)
    (locations : list Location) (error : JsError) :
  optimize_route_reply srv calls locations = Rejected error ->
  FrontendApi.optimizeRoute locations srv calls =
    (Thrown (new_Error
               (nullable_string_or (response_detail error) FrontendApi.optimize_fallback)),
     calls ++ [PostOptimizeRoute locations]).
Proof.
  intros Hrej.
  unfold FrontendApi.optimizeRoute, try_catch, bind, post_optimize_route.
  rewrite Hrej. reflexivity.
Qed.

(** [x || d] is [x] for a non-empty string and [d] for [undefined], [null]
    and the empty string. *)
Lemma nullable_string_or_spec (x : nullable jsstring) (fallback : jsstring) :
  (forall d, x = Value d -> d <> [] -> nullable_string_or x fallback = d) /\
  (x = Undefined \/ x = Null \/ x = Value [] ->
   nullable_string_or x fallback = fallback).
Proof.
  split.
  - intros d -> Hd. destruct d; [congruence | reflexivity].
  - intros [-> | [-> | ->]]; reflexivity.
Qed.

(** C4 (as amended). In [frontend/src/services/api.js], a failed call of
    [extractSequence] or [optimizeRoute] raises a fresh error whose message is
    the [detail] of the response body when that is a non-empty string, and the
    adapter's fallback string when there is no response, no body, no [detail],
    or a [null] or empty [detail]. In [src/services/api.js] the two adapters
    catch nothing: the error of the transport client reaches the caller as it
    is, with the transport client's message. *)
Theorem C4_adapter_error_message :
  (forall srv calls text error,
     extract_sequence_reply srv calls text = Rejected error ->
     exists raised,
       FrontendApi.extractSequence text srv calls =
         (Thrown raised, calls ++ [PostExtractSequence text]) /\
       response raised = None /\
       (forall d, response_detail error = Value d -> d <> [] -> message raised = d) /\
       (response_detail error = Undefined \/ response_detail error = Null \/
        response_detail error = Value [] ->
        message raised = FrontendApi.extract_fallback)) /\
  (forall srv calls locations error,
     optimize_route_reply srv calls locations = Rejected error ->
     exists raised,
       FrontendApi.optimizeRoute locations srv calls =
         (Thrown raised, calls ++ [PostOptimizeRoute locations]) /\
       response raised = None /\
       (forall d, response_detail error = Value d -> d <> [] -> message raised = d) /\
       (response_detail error = Undefined \/ response_detail error = Null \/
        response_detail error = Value [] ->
        message raised = FrontendApi.optimize_fallback)) /\
  (forall srv calls text error,
     extract_sequence_reply srv calls text = Rejected error ->
     Api.extractSequence text srv calls =
       (Thrown error, calls ++ [PostExtractSequence text])) /\
  (forall srv calls locations error,
     optimize_route_reply srv calls (imap Api.optimizeRoute_entry locations) =
       Rejected error ->
     Api.optimizeRoute locations srv calls =
       (Thrown error,
        calls ++ [PostOptimizeRoute (imap Api.optimizeRoute_entry locations)])).
Proof.
  repeat apply conj.
  - intros srv calls text error Hrej. eexists. split.
    + apply FrontendApi_extractSequence_failed, Hrej.
    + split; [reflexivity |]. apply nullable_string_or_spec.
  - intros srv calls locations error Hrej. eexists. split.
    + apply FrontendApi_optimizeRoute_failed, Hrej.
    + split; [reflexivity |]. apply nullable_string_or_spec.
  - intros srv calls text error Hrej.
    rewrite Api_extractSequence_run, Hrej. reflexivity.
  - intros srv calls locations error Hrej.
    rewrite Api_optimizeRoute_run, Hrej. reflexivity.
Qed.

(** Scenario D (status 500, body [{detail: "optimizer unavailable"}]) and
    scenario E (no response) on the adapters of both files. *)
Lemma C4_adapter_error_message_witness :
  (FrontendApi.optimizeRoute [locA; locB] (failing_server optimizer_unavailable) []).1 =
    Thrown (new_Error (lit "optimizer unavailable")) /\
  (FrontendApi.extractSequence (lit "Delhi") (failing_server timeout_error) []).1 =
    Thrown (new_Error FrontendApi.extract_fallback) /\
  (Api.optimizeRoute [locA; locB] (failing_server optimizer_unavailable) []).1 =
    Thrown optimizer_unavailable.
Proof.
  destruct C4_adapter_error_message as (Hextract & Hoptimize & _ & Hraw).
  split; [| split].
  - destruct (Hoptimize (failing_server optimizer_unavailable) [] [locA; locB]
                optimizer_unavailable eq_refl) as (raised & Hrun & Hresp & Hdetail & _).
    rewrite Hrun. simpl. destruct raised as [msg resp]. simpl in *. subst resp.
    rewrite (Hdetail (lit "optimizer unavailable") eq_refl); [reflexivity |].
    vm_compute. discriminate.
  - destruct (Hextract (failing_server timeout_error) [] (lit "Delhi")
                timeout_error eq_refl) as (raised & Hrun & Hresp & _ & Hfallback).
    rewrite Hrun. simpl. destruct raised as [msg resp]. simpl in *. subst resp.
    rewrite Hfallback; [reflexivity |]. left. reflexivity.
  - rewrite (Hraw (failing_server optimizer_unavailable) [] [locA; locB]
               optimizer_unavailable eq_refl).
    reflexivity.
Defined.

(** C4, as stated, fails in both files. In [frontend/src/services/api.js] a
    response with body [{detail: ""}] carries a detail, yet the message raised
    is the fallback. In [src/services/api.js] a response with status 500 and
    body [{detail: "optimizer unavailable"}] reaches the caller with the
    message "Request failed with status code 500", whatever strings are taken
    for the fallbacks. *)
Lemma C4_detail_not_always_surfaced :
  ~ surfaces_detail FrontendApi.extractSequence FrontendApi.optimizeRoute
      FrontendApi.extract_fallback FrontendApi.optimize_fallback /\
  ~ (exists extract_fallback optimize_fallback,
       surfaces_detail Api.extractSequence Api.optimizeRoute
         extract_fallback optimize_fallback).
Proof.
  split.
  - intros [Hextract _].
    destruct (Hextract (failing_server empty_detail) [] (lit "Delhi") empty_detail eq_refl)
      as (raised & Hrun & Hmsg).
    vm_compute in Hrun. injection Hrun as <-.
    vm_compute in Hmsg. discriminate Hmsg.
  - intros (fb1 & fb2 & _ & Hoptimize).
    destruct (Hoptimize (failing_server optimizer_unavailable) [] [locA; locB]
                optimizer_unavailable (fun _ => eq_refl)) as (raised & Hrun & Hmsg).
    vm_compute in Hrun. injection Hrun as <-.
    vm_compute in Hmsg. discriminate Hmsg.
Qed.

(** ** The liveness probe *)

Lemma Api_healthCheck_run (srv : Server) (calls : list Request) :
  Api.healthCheck srv calls =
    (Resolved match health_reply srv calls with
              | Fulfilled body => body
              | Rejected _ => Api.offline
              end,
     calls ++ [GetHealth]).
Proof.
  unfold Api.healthCheck, try_catch, bind, get_health, ret.
  destruct (health_reply srv calls); reflexivity.
Qed.

Lemma FrontendApi_healthCheck_run (srv : Server) (calls : list Request) :
  FrontendApi.healthCheck srv calls =
    (Resolved match health_reply srv calls with
              | Fulfilled body => body
              | Rejected error => FrontendApi.offline error
              end,
     calls ++ [GetHealth]).
Proof.
  unfold FrontendApi.healthCheck, try_catch, bind, get_health, ret.
  destruct (health_reply srv calls); reflexivity.
Qed.

(** C7 (as amended). [healthCheck] never throws, in either file: it resolves,
    to the body of the answer, as it is, when the call succeeds and, when the
    call fails in any way,
    to an object whose [status] is "offline" ([{status: "offline"}] in
    [src/services/api.js], the same with the error's message under [error] in
    [frontend/src/services/api.js]). *)
Theorem C7_healthCheck_never_throws (srv : Server) (calls : list Request) :
  (exists v : JsValue,
     Api.healthCheck srv calls = (Resolved v, calls ++ [GetHealth]) /\
     (forall body, health_reply srv calls = Fulfilled body -> v = body) /\
     (forall error, health_reply srv calls = Rejected error ->
        v = Api.offline /\ has_status_field v /\
        get_field (lit "status") v = Some (JsString (lit "offline")))) /\
  (exists v : JsValue,
     FrontendApi.healthCheck srv calls = (Resolved v, calls ++ [GetHealth]) /\
     (forall body, health_reply srv calls = Fulfilled body -> v = body) /\
     (forall error, health_reply srv calls = Rejected error ->
        v = FrontendApi.offline error /\ has_status_field v /\
        get_field (lit "status") v = Some (JsString (lit "offline")))).
Proof.
  split; eexists.
  - split; [apply Api_healthCheck_run |].
    destruct (health_reply srv calls) as [body | error].
    + split; [intros ? [= <-]; reflexivity | discriminate].
    + split; [discriminate |]. intros ? _.
      split; [reflexivity |]. split; [eexists |]; reflexivity.
  - split; [apply FrontendApi_healthCheck_run |].
    destruct (health_reply srv calls) as [body | error].
    + split; [intros ? [= <-]; reflexivity | discriminate].
    + split; [discriminate |]. intros ? [= <-].
      split; [reflexivity |]. split; [eexists |]; reflexivity.
Qed.

(** C7, as stated, fails in both files on the success path: when [/health]
    answers 200 with the body [{}], [healthCheck] resolves to [{}], an object
    without a [status] field. *)
Lemma C7_success_body_without_status :
  ~ always_resolves_with_status Api.healthCheck /\
  ~ always_resolves_with_status FrontendApi.healthCheck.
Proof.
  split; intros H; destruct (H statusless_server []) as (v & Hrun & Hstatus).
  - rewrite Api_healthCheck_run in Hrun. injection Hrun as <-.
    destruct Hstatus as [field Hfield]. discriminate Hfield.
  - rewrite FrontendApi_healthCheck_run in Hrun. injection Hrun as <-.
    destruct Hstatus as [field Hfield]. discriminate Hfield.
Qed.

Lemma C7_healthCheck_never_throws_witness :
  Api.healthCheck (failing_server timeout_error) [] =
    (Resolved Api.offline, [GetHealth]) /\
  FrontendApi.healthCheck (failing_server optimizer_unavailable) [] =
    (Resolved (FrontendApi.offline optimizer_unavailable), [GetHealth]) /\
  Api.healthCheck (healthy_server Null) [] =
    (Resolved (JsObject [(lit "status", JsString (lit "healthy"))]), [GetHealth]).
Proof.
  split; [| split].
  - destruct (C7_healthCheck_never_throws (failing_server timeout_error) [])
      as [(v & Hrun & _ & Hfail) _].
    destruct (Hfail timeout_error eq_refl) as (-> & _). exact Hrun.
  - destruct (C7_healthCheck_never_throws (failing_server optimizer_unavailable) [])
      as [_ (v & Hrun & _ & Hfail)].
    destruct (Hfail optimizer_unavailable eq_refl) as (-> & _). exact Hrun.
  - destruct (C7_healthCheck_never_throws (healthy_server Null) [])
      as [(v & Hrun & Hok & _) _].
    rewrite (Hok _ eq_refl) in Hrun. exact Hrun.
Defined.

(** ** The workflow state controller *)

(** C8. From every state, [handleReset] gives stage [input], the empty query
    and [null] for the error, the extracted locations and the optimisation
    result, in both versions of [App]; the other cells keep their value. *)
Theorem C8_handleReset_state :
  (forall st : AppText.WorkflowState,
     AppText.handleReset st =
       {| AppText.query := [];
          AppText.loading := AppText.loading st;
          AppText.error := Null;
          AppText.extractedLocations := Null;
          AppText.optimizationResult := JsNull;
          AppText.stage := input |}) /\
  (forall st : AppMap.WorkflowState,
     AppMap.handleReset st =
       {| AppMap.query := [];
          AppMap.loading := AppMap.loading st;
          AppMap.error := Null;
          AppMap.extractedLocations := Null;
          AppMap.optimizationResult := JsNull;
          AppMap.stage := input;
          AppMap.showMap := AppMap.showMap st |}).
Proof. split; intros st; reflexivity. Qed.

(** C9. When the query is empty or made of white space only, [handleSubmit]
    sets the error to "Please enter a logistics request" and changes nothing
    else: the stage and the loading flag are the ones it found, and the log of
    requests is untouched whatever orchestrator it was given, in both versions
    of [App]. *)
Theorem C9_blank_query_rejected :
  (forall orchestrator srv (st : AppText.WorkflowState) calls,
     blank (AppText.query st) ->
     let st' := (AppText.handleSubmit orchestrator srv st calls).1 in
     (AppText.handleSubmit orchestrator srv st calls).2 = calls /\
     st' = AppText.setError (Value (lit "Please enter a logistics request")) st /\
     AppText.error st' = Value (lit "Please enter a logistics request") /\
     AppText.stage st' = AppText.stage st /\
     AppText.loading st' = AppText.loading st) /\
  (forall orchestrator srv (st : AppMap.WorkflowState) calls,
     blank (AppMap.query st) ->
     let st' := (AppMap.handleSubmit orchestrator srv st calls).1 in
     (AppMap.handleSubmit orchestrator srv st calls).2 = calls /\
     st' = AppMap.setError (Value (lit "Please enter a logistics request")) st /\
     AppMap.error st' = Value (lit "Please enter a logistics request") /\
     AppMap.stage st' = AppMap.stage st /\
     AppMap.loading st' = AppMap.loading st).
Proof.
  split; intros orchestrator srv st calls Hblank;
    apply trim_falsy_iff_blank in Hblank.
  - unfold AppText.handleSubmit. rewrite Hblank. repeat split.
  - unfold AppMap.handleSubmit. rewrite Hblank. repeat split.
Qed.

(** A query of a space, a tab and a no-break space is blank. *)
Lemma C9_blank_query_rejected_witness :
  let st := AppMap.setQuery [0x20; 0x09; 0xA0]%N AppMap.initial in
  AppMap.handleSubmit Api.processLogisticsRequest
    (healthy_server (Value [locA; locB])) st [] =
    (AppMap.setError (Value (lit "Please enter a logistics request")) st, []) /\
  AppText.handleSubmit FrontendApi.processLogisticsRequest
    (healthy_server (Value [locA; locB])) AppText.initial [] =
    (AppText.setError (Value (lit "Please enter a logistics request")) AppText.initial, []).
Proof.
  intros st. destruct C9_blank_query_rejected as [Htext Hmap]. split.
  - assert (Hblank : blank (AppMap.query st)).
    { repeat constructor. }
    destruct (Hmap Api.processLogisticsRequest (healthy_server (Value [locA; locB]))
                st [] Hblank) as (Hcalls & Hst & _).
    revert Hcalls Hst. destruct (AppMap.handleSubmit _ _ _ _) as [st' calls'].
    simpl. intros -> ->. reflexivity.
  - assert (Hblank : blank (AppText.query AppText.initial)).
    { constructor. }
    destruct (Htext FrontendApi.processLogisticsRequest
                (healthy_server (Value [locA; locB])) AppText.initial [] Hblank)
      as (Hcalls & Hst & _).
    revert Hcalls Hst. destruct (AppText.handleSubmit _ _ _ _) as [st' calls'].
    simpl. intros -> ->. reflexivity.
Defined.

Lemma AppMap_handleSubmit_run
    (orchestrator : jsstring -> Async LogisticsResult)
    (srv : Server) (st : AppMap.WorkflowState) (calls : list Request) :
  ~ blank (AppMap.query st) ->
  AppMap.handleSubmit orchestrator srv st calls =
    (AppMap.setLoading false
       match (orchestrator (AppMap.query st) srv calls).1 with
       | Resolved result =>
           AppMap.setStage results
             (AppMap.setOptimizationResult (optimized result)
                (AppMap.setExtractedLocations (parsed_locations (extracted result))
                   (AppMap.start_processing st)))
       | Thrown err =>
           AppMap.setStage input
             (AppMap.setError
                (Value (string_or (message err) (lit "Something went wrong")))
                (AppMap.start_processing st))
       end,
     (orchestrator (AppMap.query st) srv calls).2).
Proof.
  intros Hblank. unfold AppMap.handleSubmit.
  destruct (string_falsy (trim (AppMap.query st))) eqn:Htrim.
  - apply trim_falsy_iff_blank in Htrim. contradiction.
  - simpl. destruct (orchestrator (AppMap.query st) srv calls) as [outcome calls'].
    reflexivity.
Qed.

Lemma AppMap_handleMapOptimization_run
    (optimizeRoute : list Location -> Async JsValue) (locations : list Location)
    (srv : Server) (st : AppMap.WorkflowState) (calls : list Request) :
  AppMap.handleMapOptimization optimizeRoute locations srv st calls =
    (AppMap.setLoading false
       match (optimizeRoute locations srv calls).1 with
       | Resolved optimized =>
           AppMap.setStage results
             (AppMap.setOptimizationResult optimized
                (AppMap.setExtractedLocations (Value locations)
                   (AppMap.start_processing (AppMap.setShowMap false st))))
       | Thrown err =>
           AppMap.setStage input
             (AppMap.setError
                (Value (string_or (message err) (lit "Route optimization failed")))
                (AppMap.start_processing (AppMap.setShowMap false st)))
       end,
     (optimizeRoute locations srv calls).2).
Proof.
  unfold AppMap.handleMapOptimization.
  destruct (optimizeRoute locations srv calls) as [outcome calls']. reflexivity.
Qed.

(** C5. When the orchestrator called by [handleSubmit] (for a query that is
    not blank) or by [handleMapOptimization] throws, before or after its first
    [await], the state that results has [loading = false], [stage = input] and
    a non-empty error message: the message of the error, or the handler's
    default when that is empty. When the orchestrator resolves, [loading] is
    false as well. *)
Theorem C5_failure_returns_to_input :
  (forall orchestrator srv (st : AppMap.WorkflowState) calls,
     ~ blank (AppMap.query st) ->
     let st' := (AppMap.handleSubmit orchestrator srv st calls).1 in
     AppMap.loading st' = false /\
     forall err,
       (orchestrator (AppMap.query st) srv calls).1 = Thrown err ->
       AppMap.stage st' = input /\
       AppMap.error st' =
         Value (string_or (message err) (lit "Something went wrong")) /\
       string_or (message err) (lit "Something went wrong") <> []) /\
  (forall optimizeRoute locations srv (st : AppMap.WorkflowState) calls,
     let st' := (AppMap.handleMapOptimization optimizeRoute locations srv st calls).1 in
     AppMap.loading st' = false /\
     forall err,
       (optimizeRoute locations srv calls).1 = Thrown err ->
       AppMap.stage st' = input /\
       AppMap.error st' =
         Value (string_or (message err) (lit "Route optimization failed")) /\
       string_or (message err) (lit "Route optimization failed") <> []).
Proof.
  split.
  - intros orchestrator srv st calls Hblank st'. subst st'.
    rewrite (AppMap_handleSubmit_run _ _ _ _ Hblank). simpl.
    split; [reflexivity |].
    intros err ->. simpl.
    repeat split. apply string_or_nonempty. discriminate.
  - intros optimizeRoute locations srv st calls st'. subst st'.
    rewrite AppMap_handleMapOptimization_run. simpl.
    split; [reflexivity |].
    intros err ->. simpl.
    repeat split. apply string_or_nonempty. discriminate.
Qed.

(** Scenario B (a single location extracted), a timeout in the map flow, and
    an orchestrator that throws at once with an empty message. *)
Lemma C5_failure_returns_to_input_witness :
  let st := AppMap.setQuery (lit "Delhi") AppMap.initial in
  let after_submit :=
    (AppMap.handleSubmit Api.processLogisticsRequest
       (healthy_server (Value [locA])) st []).1 in
  let after_map :=
    (AppMap.handleMapOptimization Api.optimizeRoute [locA; locB]
       (failing_server timeout_error) st []).1 in
  let after_throw :=
    (AppMap.handleSubmit (fun _ => throw (new_Error [])) (healthy_server Null) st []).1 in
  (AppMap.loading after_submit = false /\ AppMap.stage after_submit = input /\
   AppMap.error after_submit = Value (lit "At least two locations are required.")) /\
  (AppMap.loading after_map = false /\ AppMap.stage after_map = input /\
   AppMap.error after_map = Value (lit "timeout of 60000ms exceeded")) /\
  (AppMap.loading after_throw = false /\ AppMap.stage after_throw = input /\
   AppMap.error after_throw = Value (lit "Something went wrong")).
Proof.
  intros st after_submit after_map after_throw.
  destruct C5_failure_returns_to_input as [Hsubmit Hmap].
  assert (Hquery : ~ blank (AppMap.query st)).
  { intros H. apply trim_falsy_iff_blank in H. vm_compute in H. discriminate H. }
  split; [| split].
  - destruct (Hsubmit Api.processLogisticsRequest (healthy_server (Value [locA]))
                st [] Hquery) as [Hloading Hfail].
    destruct (Hfail (new_Error (lit "At least two locations are required.")) eq_refl)
      as (Hstage & Herror & _).
    repeat split; assumption.
  - destruct (Hmap Api.optimizeRoute [locA; locB] (failing_server timeout_error) st [])
      as [Hloading Hfail].
    destruct (Hfail timeout_error eq_refl) as (Hstage & Herror & _).
    repeat split; assumption.
  - destruct (Hsubmit (fun _ => throw (new_Error [])) (healthy_server Null)
                st [] Hquery) as [Hloading Hfail].
    destruct (Hfail (new_Error []) eq_refl) as (Hstage & Herror & _).
    repeat split; assumption.
Defined.

(** ** Scenarios through the controller *)

(** Scenario A: four locations are extracted; the controller ends in
    [results] with the four of them, and loading off. *)
Example scenario_A_four_locations :
  let st := AppMap.setQuery (lit "Start from Delhi, visit Mumbai") AppMap.initial in
  let st' :=
    (AppMap.handleSubmit Api.processLogisticsRequest
       (healthy_server (Value [locA; locB; locC; locA])) st []).1 in
  AppMap.stage st' = results /\
  AppMap.loading st' = false /\
  AppMap.extractedLocations st' = Value [locA; locB; locC; locA].
Proof. repeat split. Qed.

(** The map flow of the controller calls [optimizeRoute] itself, not
    [optimizeFromMap]: with the adapter of [src/services/api.js] the two
    picked locations of scenario C are sent with the sequence numbers 1 and 2,
    and a number that a picked location already has is kept. *)
Example scenario_C_through_controller :
  optimize_payloads
    (AppMap.handleMapOptimization Api.optimizeRoute [locA; locB]
       (healthy_server Null) AppMap.initial []).2 =
    [imap Api.optimizeFromMap_entry [locA; locB]] /\
  map (map visit_sequence)
    (optimize_payloads
      (AppMap.handleMapOptimization Api.optimizeRoute [locA; locC]
         (healthy_server Null) AppMap.initial []).2) =
    [[Value 1; Value 7]].
Proof. split; reflexivity. Qed.

(** ** More on the adapter of [src/services/api.js] *)







(** X4. For two locations or more, the numbers that [optimizeFromMap] sends are
    1, 2, ..., n in this order, whatever numbers the input carried; no number
    is sent twice. *)
Theorem optimizeFromMap_sequence_contiguous (srv : Server) (calls : list Request)
    (locations : list Location) :
  (2 <= length locations)%nat ->
  exists payload,
    (Api.optimizeFromMap (Value locations) srv calls).2 =
      calls ++ [PostOptimizeRoute payload] /\
    visit_sequence <$> payload = Value <$> seqZ 1 (Z.of_nat (length locations)) /\
    NoDup (visit_sequence <$> payload).
Proof.
  intros Hlen. exists (imap Api.optimizeFromMap_entry locations).
  assert (Hseq : visit_sequence <$> imap Api.optimizeFromMap_entry locations =
                 Value <$> seqZ 1 (Z.of_nat (length locations))).
  { apply list_eq. intros i.
    rewrite !list_lookup_fmap, list_lookup_imap.
    destruct (locations !! i) as [loc|] eqn:Hi; simpl.
    - rewrite lookup_seqZ_lt by (apply lookup_lt_Some in Hi; lia).
      simpl. do 2 f_equal. lia.
    - rewrite lookup_seqZ_ge; [reflexivity |].
      apply lookup_ge_None in Hi. lia. }
  split; [| split].
  - unfold Api.optimizeFromMap. rewrite (fewer_than_two_false _ Hlen).
    rewrite Api_optimizeRoute_run, Api_optimizeRoute_entry_enriched. reflexivity.
  - exact Hseq.
  - rewrite Hseq. apply NoDup_fmap_2; [| apply NoDup_seqZ].
    intros x y [= ->]. reflexivity.
Qed.

Lemma optimizeFromMap_sequence_contiguous_witness :
  exists payload,
    (Api.optimizeFromMap (Value [locTwo; locA; locC]) (healthy_server Null) []).2 =
      [PostOptimizeRoute payload] /\
    visit_sequence <$> payload = [Value 1; Value 2; Value 3] /\
    NoDup (visit_sequence <$> payload).
Proof.
  apply (optimizeFromMap_sequence_contiguous (healthy_server Null) []
           [locTwo; locA; locC]).
  simpl. lia.
Defined.

(** ** More on the text-flow orchestrators *)

(** [processLogisticsRequest] of [src/services/api.js], case by case. *)
Lemma Api_processLogisticsRequest_run (text : jsstring) (srv : Server)
    (calls : list Request) :
  Api.processLogisticsRequest text srv calls =
    let calls1 := calls ++ [PostExtractSequence text] in
    let gate := new_Error (lit "At least two locations are required.") in
    match extract_sequence_reply srv calls text with
    | Rejected error => (Thrown error, calls1)
    | Fulfilled ex =>
        match parsed_locations ex with
        | Undefined | Null => (Thrown gate, calls1)
        | Value locations =>
            if fewer_than_two locations then (Thrown gate, calls1)
            else
              let payload := imap Api.optimizeRoute_entry locations in
              (match optimize_route_reply srv calls1 payload with
               | Fulfilled body => Resolved {| extracted := ex; optimized := body |}
               | Rejected error => Thrown error
               end,
               calls1 ++ [PostOptimizeRoute payload])
        end
    end.
Proof.
  unfold Api.processLogisticsRequest, bind.
  rewrite Api_extractSequence_run.
  destruct (extract_sequence_reply srv calls text) as [ex | error]; simpl;
    [| reflexivity].
  destruct (parsed_locations ex) as [| | locations]; try reflexivity.
  destruct (fewer_than_two locations); [reflexivity |].
  rewrite Api_optimizeRoute_run.
  destruct (optimize_route_reply srv _ _); reflexivity.
Qed.

(** [processLogisticsRequest] of [frontend/src/services/api.js], case by
    case. *)
Lemma FrontendApi_processLogisticsRequest_run (text : jsstring) (srv : Server)
    (calls : list Request) :
  FrontendApi.processLogisticsRequest text srv calls =
    let calls1 := calls ++ [PostExtractSequence text] in
    let none :=
      new_Error (lit "No locations found in your request. Please provide city names.") in
    match extract_sequence_reply srv calls text with
    | Rejected error =>
        (Thrown (new_Error
                   (nullable_string_or (response_detail error)
                      FrontendApi.extract_fallback)),
         calls1)
    | Fulfilled ex =>
        match parsed_locations ex with
        | Undefined | Null | Value [] => (Thrown none, calls1)
        | Value locations =>
            (match optimize_route_reply srv calls1 locations with
             | Fulfilled body => Resolved {| extracted := ex; optimized := body |}
             | Rejected error =>
                 Thrown (new_Error
                           (nullable_string_or (response_detail error)
                              FrontendApi.optimize_fallback))
             end,
             calls1 ++ [PostOptimizeRoute locations])
        end
    end.
Proof.
  unfold FrontendApi.processLogisticsRequest, try_catch at 1, bind.
  destruct (extract_sequence_reply srv calls text) as [ex | error] eqn:Hex.
  - rewrite (FrontendApi_extractSequence_ok _ _ _ _ Hex).
    destruct (parsed_locations ex) as [| | [| loc rest]]; try reflexivity.
    unfold FrontendApi.is_empty. simpl.
    destruct (optimize_route_reply srv (calls ++ [PostExtractSequence text])
                (loc :: rest)) as [body | error] eqn:Hopt.
    + unfold FrontendApi.optimizeRoute, try_catch, bind, post_optimize_route.
      rewrite Hopt. reflexivity.
    + rewrite (FrontendApi_optimizeRoute_failed _ _ _ _ Hopt). reflexivity.
  - rewrite (FrontendApi_extractSequence_failed _ _ _ _ Hex). reflexivity.
Qed.

(** X5. In [src/services/api.js]: when extraction answers with two locations or
    more and the optimiser answers, the operation resolves to both answers,
    after exactly two requests: the extraction, then the optimisation of the
    rewritten list. *)
Theorem processLogisticsRequest_success (srv : Server) (calls : list Request)
    (text : jsstring) (ex : ExtractionResult) (locations : list Location)
    (body : JsValue) :
  extract_sequence_reply srv calls text = Fulfilled ex ->
  parsed_locations ex = Value locations ->
  (2 <= length locations)%nat ->
  optimize_route_reply srv (calls ++ [PostExtractSequence text])
    (imap Api.optimizeRoute_entry locations) = Fulfilled body ->
  Api.processLogisticsRequest text srv calls =
    (Resolved {| extracted := ex; optimized := body |},
     calls ++ [PostExtractSequence text;
               PostOptimizeRoute (imap Api.optimizeRoute_entry locations)]).
Proof.
  intros Hex Hlocs Hlen Hopt.
  rewrite Api_processLogisticsRequest_run. simpl.
  rewrite Hex, Hlocs, (fewer_than_two_false _ Hlen), Hopt, <- app_assoc.
  reflexivity.
Qed.

Lemma processLogisticsRequest_success_witness :
  exists body,
    Api.processLogisticsRequest (lit "Delhi to Pune")
      (healthy_server (Value [locA; locB])) [] =
      (Resolved {| extracted := {| parsed_locations := Value [locA; locB] |};
                   optimized := body |},
       [PostExtractSequence (lit "Delhi to Pune");
        PostOptimizeRoute (imap Api.optimizeRoute_entry [locA; locB])]).
Proof.
  eexists.
  apply (processLogisticsRequest_success (healthy_server (Value [locA; locB])) []
           (lit "Delhi to Pune") {| parsed_locations := Value [locA; locB] |}
           [locA; locB]).
  - reflexivity.
  - reflexivity.
  - simpl. lia.
  - reflexivity.
Defined.

(** X6. In [src/services/api.js]: a failure of either call is thrown to the
    caller as the transport client made it, and nothing is returned. When
    extraction fails the optimiser is not called. *)
Theorem processLogisticsRequest_failure_propagates (srv : Server)
    (calls : list Request) (text : jsstring) :
  (forall error,
     extract_sequence_reply srv calls text = Rejected error ->
     Api.processLogisticsRequest text srv calls =
       (Thrown error, calls ++ [PostExtractSequence text])) /\
  (forall ex locations error,
     extract_sequence_reply srv calls text = Fulfilled ex ->
     parsed_locations ex = Value locations ->
     (2 <= length locations)%nat ->
     optimize_route_reply srv (calls ++ [PostExtractSequence text])
       (imap Api.optimizeRoute_entry locations) = Rejected error ->
     Api.processLogisticsRequest text srv calls =
       (Thrown error,
        calls ++ [PostExtractSequence text;
                  PostOptimizeRoute (imap Api.optimizeRoute_entry locations)])).
Proof.
  split.
  - intros error Hex. rewrite Api_processLogisticsRequest_run. simpl.
    rewrite Hex. reflexivity.
  - intros ex locations error Hex Hlocs Hlen Hopt.
    rewrite Api_processLogisticsRequest_run. simpl.
    rewrite Hex, Hlocs, (fewer_than_two_false _ Hlen), Hopt, <- app_assoc.
    reflexivity.
Qed.

(** A service that extracts the given locations and whose optimiser fails. *)
Lemma processLogisticsRequest_failure_propagates_witness :
  Api.processLogisticsRequest (lit "Delhi") (failing_server timeout_error) [] =
    (Thrown timeout_error, [PostExtractSequence (lit "Delhi")]) /\
  Api.processLogisticsRequest (lit "Delhi")
    (constant_server (Fulfilled {| parsed_locations := Value [locA; locB] |})
       (Rejected optimizer_unavailable) (Rejected optimizer_unavailable)) [] =
    (Thrown optimizer_unavailable,
     [PostExtractSequence (lit "Delhi");
      PostOptimizeRoute (imap Api.optimizeRoute_entry [locA; locB])]).
Proof.
  split.
  - apply (proj1 (processLogisticsRequest_failure_propagates
                    (failing_server timeout_error) [] (lit "Delhi"))).
    reflexivity.
  - apply (proj2 (processLogisticsRequest_failure_propagates
                    (constant_server
                       (Fulfilled {| parsed_locations := Value [locA; locB] |})
                       (Rejected optimizer_unavailable)
                       (Rejected optimizer_unavailable)) [] (lit "Delhi"))
             {| parsed_locations := Value [locA; locB] |} [locA; locB]).
    + reflexivity.
    + reflexivity.
    + simpl. lia.
    + reflexivity.
Defined.

(** X7. In [src/services/api.js], whatever the service answers: the operation
    sends the extraction request first and then at most one optimisation
    request, whose payload has two entries or more; it resolves only when
    both were sent. Nothing is sent twice. *)
Theorem processLogisticsRequest_traffic (srv : Server) (calls : list Request)
    (text : jsstring) :
  let run := Api.processLogisticsRequest text srv calls in
  (run.2 = calls ++ [PostExtractSequence text] /\
   exists error, run.1 = Thrown error) \/
  (exists payload,
     run.2 = calls ++ [PostExtractSequence text; PostOptimizeRoute payload] /\
     (2 <= length payload)%nat).
Proof.
  simpl. rewrite Api_processLogisticsRequest_run. simpl.
  destruct (extract_sequence_reply srv calls text) as [ex | error];
    [| left; eauto].
  destruct (parsed_locations ex) as [| | locations]; [left; eauto .. |].
  destruct (fewer_than_two locations) eqn:Hfew; [left; eauto |].
  right. eexists. rewrite <- app_assoc. split; [reflexivity |].
  rewrite length_imap. unfold fewer_than_two in Hfew.
  apply bool_decide_eq_false in Hfew. lia.
Qed.



(** X10. In [frontend/src/services/api.js]: when extraction answers with one
    location or more and the optimiser answers, the operation resolves to both
    answers after exactly two requests, and the optimiser receives the
    extracted list as it is. *)
Theorem frontend_processLogisticsRequest_success (srv : Server)
    (calls : list Request) (text : jsstring) (ex : ExtractionResult)
    (locations : list Location) (body : JsValue) :
  extract_sequence_reply srv calls text = Fulfilled ex ->
  parsed_locations ex = Value locations ->
  locations <> [] ->
  optimize_route_reply srv (calls ++ [PostExtractSequence text]) locations =
    Fulfilled body ->
  FrontendApi.processLogisticsRequest text srv calls =
    (Resolved {| extracted := ex; optimized := body |},
     calls ++ [PostExtractSequence text; PostOptimizeRoute locations]).
Proof.
  intros Hex Hlocs Hne Hopt.
  rewrite FrontendApi_processLogisticsRequest_run. simpl.
  rewrite Hex, Hlocs. destruct locations as [| loc rest]; [congruence |].
  rewrite Hopt, <- app_assoc. reflexivity.
Qed.

Lemma frontend_processLogisticsRequest_success_witness :
  exists body,
    FrontendApi.processLogisticsRequest (lit "Delhi")
      (healthy_server (Value [locA])) [] =
      (Resolved {| extracted := {| parsed_locations := Value [locA] |};
                   optimized := body |},
       [PostExtractSequence (lit "Delhi"); PostOptimizeRoute [locA]]).
Proof.
  eexists.
  apply (frontend_processLogisticsRequest_success (healthy_server (Value [locA])) []
           (lit "Delhi") {| parsed_locations := Value [locA] |} [locA]).
  - reflexivity.
  - reflexivity.
  - discriminate.
  - reflexivity.
Defined.

(** X11. In [frontend/src/services/api.js]: a failed extraction is reported with
    the detail of its response or the extraction fallback, and the optimiser
    is not called; a failed optimisation is reported with the detail of its
    response or the optimisation fallback. *)
Theorem frontend_processLogisticsRequest_failure (srv : Server)
    (calls : list Request) (text : jsstring) :
  (forall error,
     extract_sequence_reply srv calls text = Rejected error ->
     FrontendApi.processLogisticsRequest text srv calls =
       (Thrown (new_Error
                  (nullable_string_or (response_detail error)
                     FrontendApi.extract_fallback)),
        calls ++ [PostExtractSequence text])) /\
  (forall ex locations error,
     extract_sequence_reply srv calls text = Fulfilled ex ->
     parsed_locations ex = Value locations ->
     locations <> [] ->
     optimize_route_reply srv (calls ++ [PostExtractSequence text]) locations =
       Rejected error ->
     FrontendApi.processLogisticsRequest text srv calls =
       (Thrown (new_Error
                  (nullable_string_or (response_detail error)
                     FrontendApi.optimize_fallback)),
        calls ++ [PostExtractSequence text; PostOptimizeRoute locations])).
Proof.
  split.
  - intros error Hex. rewrite FrontendApi_processLogisticsRequest_run. simpl.
    rewrite Hex. reflexivity.
  - intros ex locations error Hex Hlocs Hne Hopt.
    rewrite FrontendApi_processLogisticsRequest_run. simpl.
    rewrite Hex, Hlocs. destruct locations as [| loc rest]; [congruence |].
    rewrite Hopt, <- app_assoc. reflexivity.
Qed.

Lemma frontend_processLogisticsRequest_failure_witness :
  FrontendApi.processLogisticsRequest (lit "Delhi") (failing_server timeout_error) [] =
    (Thrown (new_Error FrontendApi.extract_fallback),
     [PostExtractSequence (lit "Delhi")]) /\
  FrontendApi.processLogisticsRequest (lit "Delhi")
    (constant_server (Fulfilled {| parsed_locations := Value [locA; locB] |})
       (Rejected optimizer_unavailable) (Rejected optimizer_unavailable)) [] =
    (Thrown (new_Error (lit "optimizer unavailable")),
     [PostExtractSequence (lit "Delhi"); PostOptimizeRoute [locA; locB]]).
Proof.
  split.
  - apply (proj1 (frontend_processLogisticsRequest_failure
                    (failing_server timeout_error) [] (lit "Delhi"))
             timeout_error).
    reflexivity.
  - apply (proj2 (frontend_processLogisticsRequest_failure
                    (constant_server
                       (Fulfilled {| parsed_locations := Value [locA; locB] |})
                       (Rejected optimizer_unavailable)
                       (Rejected optimizer_unavailable)) [] (lit "Delhi"))
             {| parsed_locations := Value [locA; locB] |} [locA; locB]
             optimizer_unavailable).
    + reflexivity.
    + reflexivity.
    + discriminate.
    + reflexivity.
Defined.

(** X12. In [frontend/src/services/api.js]: a result comes back only with a list of
    at least one location in it, and only after the optimiser was called with
    that very list. *)
Theorem frontend_processLogisticsRequest_resolved (srv : Server)
    (calls : list Request) (text : jsstring) (result : LogisticsResult) :
  (FrontendApi.processLogisticsRequest text srv calls).1 = Resolved result ->
  exists locations,
    parsed_locations (extracted result) = Value locations /\
    locations <> [] /\
    (FrontendApi.processLogisticsRequest text srv calls).2 =
      calls ++ [PostExtractSequence text; PostOptimizeRoute locations].
Proof.
  rewrite FrontendApi_processLogisticsRequest_run. simpl.
  destruct (extract_sequence_reply srv calls text) as [ex | failed]; simpl;
    [| discriminate].
  destruct (parsed_locations ex) as [| | [| loc rest]] eqn:Hlocs; simpl;
    try discriminate.
  destruct (optimize_route_reply srv _ _) as [body | failed]; simpl;
    [| discriminate].
  intros [= <-]. exists (loc :: rest). simpl.
  rewrite <- app_assoc. repeat split; [assumption | discriminate].
Qed.

Lemma frontend_processLogisticsRequest_resolved_witness :
  exists locations,
    Value [locA] = Value locations /\
    locations <> [] /\
    (FrontendApi.processLogisticsRequest (lit "Delhi")
       (healthy_server (Value [locA])) []).2 =
      [PostExtractSequence (lit "Delhi"); PostOptimizeRoute locations].
Proof.
  apply (frontend_processLogisticsRequest_resolved (healthy_server (Value [locA])) []
           (lit "Delhi")
           {| extracted := {| parsed_locations := Value [locA] |};
              optimized := JsObject [(lit "total_distance", JsNumber 10%float)] |}).
  reflexivity.
Defined.

(** X8. In [src/services/api.js]: a result comes back only with a list of at
    least two locations in it. *)
Theorem processLogisticsRequest_resolved (srv : Server)
    (calls : list Request) (text : jsstring) (result : LogisticsResult) :
  (Api.processLogisticsRequest text srv calls).1 = Resolved result ->
  exists locations,
    parsed_locations (extracted result) = Value locations /\
    (2 <= length locations)%nat /\
    (Api.processLogisticsRequest text srv calls).2 =
      calls ++ [PostExtractSequence text;
                PostOptimizeRoute (imap Api.optimizeRoute_entry locations)].
Proof.
  rewrite Api_processLogisticsRequest_run. simpl.
  destruct (extract_sequence_reply srv calls text) as [ex | failed]; simpl;
    [| discriminate].
  destruct (parsed_locations ex) as [| | locations] eqn:Hlocs; simpl;
    try discriminate.
  destruct (fewer_than_two locations) eqn:Hfew; simpl; [discriminate |].
  destruct (optimize_route_reply srv _ _) as [body | failed]; simpl;
    [| discriminate].
  intros [= <-]. exists locations. simpl.
  rewrite <- app_assoc. repeat split; [assumption |].
  unfold fewer_than_two in Hfew. apply bool_decide_eq_false in Hfew. lia.
Qed.

Lemma processLogisticsRequest_resolved_witness :
  exists locations,
    Value [locA; locB] = Value locations /\
    (2 <= length locations)%nat /\
    (Api.processLogisticsRequest (lit "Delhi")
       (healthy_server (Value [locA; locB])) []).2 =
      [PostExtractSequence (lit "Delhi");
       PostOptimizeRoute (imap Api.optimizeRoute_entry locations)].
Proof.
  apply (processLogisticsRequest_resolved (healthy_server (Value [locA; locB])) []
           (lit "Delhi")
           {| extracted := {| parsed_locations := Value [locA; locB] |};
              optimized := JsObject [(lit "total_distance", JsNumber 10%float)] |}).
  reflexivity.
Defined.

(** ** More on the controller *)

Lemma AppText_handleSubmit_run
    (orchestrator : jsstring -> Async LogisticsResult)
    (srv : Server) (st : AppText.WorkflowState) (calls : list Request) :
  ~ blank (AppText.query st) ->
  AppText.handleSubmit orchestrator srv st calls =
    (AppText.setLoading false
       match (orchestrator (AppText.query st) srv calls).1 with
       | Resolved result =>
           AppText.setStage results
             (AppText.setOptimizationResult (optimized result)
                (AppText.setExtractedLocations (parsed_locations (extracted result))
                   (AppTextUI.in_flight st)))
       | Thrown err =>
           AppText.setStage input
             (AppText.setError (Value (message err)) (AppTextUI.in_flight st))
       end,
     (orchestrator (AppText.query st) srv calls).2).
Proof.
  intros Hblank. unfold AppText.handleSubmit.
  destruct (string_falsy (trim (AppText.query st))) eqn:Htrim.
  - apply trim_falsy_iff_blank in Htrim. contradiction.
  - simpl. destruct (orchestrator (AppText.query st) srv calls) as [outcome calls'].
    reflexivity.
Qed.

Lemma not_blank_lit_Delhi : ~ blank (lit "Delhi").
Proof. intros H. apply trim_falsy_iff_blank in H. vm_compute in H. discriminate H. Qed.

(** X13. When the orchestrator resolves, [handleSubmit] ends with the stage
    [results], the two answers in their cells, no error, loading off and the
    query as it was, in both versions of [App]. *)
Theorem handleSubmit_success_state :
  (forall orchestrator srv (st : AppText.WorkflowState) calls result,
     ~ blank (AppText.query st) ->
     (orchestrator (AppText.query st) srv calls).1 = Resolved result ->
     (AppText.handleSubmit orchestrator srv st calls).1 =
       {| AppText.query := AppText.query st;
          AppText.loading := false;
          AppText.error := Null;
          AppText.extractedLocations := parsed_locations (extracted result);
          AppText.optimizationResult := optimized result;
          AppText.stage := results |}) /\
  (forall orchestrator srv (st : AppMap.WorkflowState) calls result,
     ~ blank (AppMap.query st) ->
     (orchestrator (AppMap.query st) srv calls).1 = Resolved result ->
     (AppMap.handleSubmit orchestrator srv st calls).1 =
       {| AppMap.query := AppMap.query st;
          AppMap.loading := false;
          AppMap.error := Null;
          AppMap.extractedLocations := parsed_locations (extracted result);
          AppMap.optimizationResult := optimized result;
          AppMap.stage := results;
          AppMap.showMap := AppMap.showMap st |}).
Proof.
  split; intros orchestrator srv st calls result Hblank Hrun.
  - rewrite (AppText_handleSubmit_run _ _ _ _ Hblank). simpl.
    rewrite Hrun. reflexivity.
  - rewrite (AppMap_handleSubmit_run _ _ _ _ Hblank). simpl.
    rewrite Hrun. reflexivity.
Qed.

Lemma handleSubmit_success_state_witness :
  AppText.stage
    (AppText.handleSubmit FrontendApi.processLogisticsRequest
       (healthy_server (Value [locA; locB]))
       (AppText.setQuery (lit "Delhi") AppText.initial) []).1 = results /\
  AppMap.extractedLocations
    (AppMap.handleSubmit Api.processLogisticsRequest
       (healthy_server (Value [locA; locB]))
       (AppMap.setQuery (lit "Delhi") AppMap.initial) []).1 = Value [locA; locB].
Proof.
  destruct handleSubmit_success_state as [Htext Hmap]. split.
  - rewrite (Htext FrontendApi.processLogisticsRequest
               (healthy_server (Value [locA; locB]))
               (AppText.setQuery (lit "Delhi") AppText.initial) []
               {| extracted := {| parsed_locations := Value [locA; locB] |};
                  optimized := JsObject [(lit "total_distance", JsNumber 10%float)] |}
               not_blank_lit_Delhi eq_refl).
    reflexivity.
  - rewrite (Hmap Api.processLogisticsRequest
               (healthy_server (Value [locA; locB]))
               (AppMap.setQuery (lit "Delhi") AppMap.initial) []
               {| extracted := {| parsed_locations := Value [locA; locB] |};
                  optimized := JsObject [(lit "total_distance", JsNumber 10%float)] |}
               not_blank_lit_Delhi eq_refl).
    reflexivity.
Defined.

(** X14. A submit that fails throws away what an earlier request had produced: the
    extracted locations and the optimisation result are [null] afterwards,
    while the query is kept, in both versions of [App]. *)
Theorem handleSubmit_failure_discards_results :
  (forall orchestrator srv (st : AppText.WorkflowState) calls err,
     ~ blank (AppText.query st) ->
     (orchestrator (AppText.query st) srv calls).1 = Thrown err ->
     let st' := (AppText.handleSubmit orchestrator srv st calls).1 in
     AppText.extractedLocations st' = Null /\
     AppText.optimizationResult st' = JsNull /\
     AppText.query st' = AppText.query st) /\
  (forall orchestrator srv (st : AppMap.WorkflowState) calls err,
     ~ blank (AppMap.query st) ->
     (orchestrator (AppMap.query st) srv calls).1 = Thrown err ->
     let st' := (AppMap.handleSubmit orchestrator srv st calls).1 in
     AppMap.extractedLocations st' = Null /\
     AppMap.optimizationResult st' = JsNull /\
     AppMap.query st' = AppMap.query st).
Proof.
  split; intros orchestrator srv st calls err Hblank Hrun; simpl.
  - rewrite (AppText_handleSubmit_run _ _ _ _ Hblank). simpl.
    rewrite Hrun. repeat split.
  - rewrite (AppMap_handleSubmit_run _ _ _ _ Hblank). simpl.
    rewrite Hrun. repeat split.
Qed.

(** A page that shows the results of an earlier request; the new request
    fails. *)
Lemma handleSubmit_failure_discards_results_witness :
  let shown :=
    AppMap.setStage results
      (AppMap.setExtractedLocations (Value [locA; locB])
         (AppMap.setQuery (lit "Delhi") AppMap.initial)) in
  let st' :=
    (AppMap.handleSubmit Api.processLogisticsRequest
       (failing_server timeout_error) shown []).1 in
  AppMap.extractedLocations st' = Null /\
  AppMap.optimizationResult st' = JsNull /\
  AppMap.query st' = lit "Delhi".
Proof.
  intros shown st'.
  apply (proj2 handleSubmit_failure_discards_results Api.processLogisticsRequest
           (failing_server timeout_error) shown [] timeout_error).
  - exact not_blank_lit_Delhi.
  - reflexivity.
Defined.

(** X15. The text that [handleSubmit] sends for extraction is the query as it was
    typed, white space at both ends included: [trim] is used for the test
    only. With either copy of the orchestrator, the first request of a submit
    is the extraction of the untrimmed query. *)
Theorem handleSubmit_sends_query_untrimmed :
  (forall srv (st : AppMap.WorkflowState) calls,
     ~ blank (AppMap.query st) ->
     exists more,
       (AppMap.handleSubmit Api.processLogisticsRequest srv st calls).2 =
         calls ++ PostExtractSequence (AppMap.query st) :: more) /\
  (forall srv (st : AppText.WorkflowState) calls,
     ~ blank (AppText.query st) ->
     exists more,
       (AppText.handleSubmit FrontendApi.processLogisticsRequest srv st calls).2 =
         calls ++ PostExtractSequence (AppText.query st) :: more).
Proof.
  split; intros srv st calls Hblank.
  - rewrite (AppMap_handleSubmit_run _ _ _ _ Hblank). simpl.
    rewrite Api_processLogisticsRequest_run. simpl.
    destruct (extract_sequence_reply srv calls _) as [ex | failed];
      [| eexists; reflexivity].
    destruct (parsed_locations ex) as [| | locations];
      try (eexists; reflexivity).
    destruct (fewer_than_two locations); [eexists; reflexivity |].
    eexists. simpl. rewrite <- app_assoc. reflexivity.
  - rewrite (AppText_handleSubmit_run _ _ _ _ Hblank). simpl.
    rewrite FrontendApi_processLogisticsRequest_run. simpl.
    destruct (extract_sequence_reply srv calls _) as [ex | failed];
      [| eexists; reflexivity].
    destruct (parsed_locations ex) as [| | [| loc rest]];
      try (eexists; reflexivity).
    eexists. simpl. rewrite <- app_assoc. reflexivity.
Qed.

Lemma handleSubmit_sends_query_untrimmed_witness :
  exists more,
    (AppMap.handleSubmit Api.processLogisticsRequest (healthy_server (Value [locA; locB]))
       (AppMap.setQuery padded_query AppMap.initial) []).2 =
      PostExtractSequence padded_query :: more.
Proof.
  apply (proj1 handleSubmit_sends_query_untrimmed
           (healthy_server (Value [locA; locB]))
           (AppMap.setQuery padded_query AppMap.initial) []).
  intros H. apply trim_falsy_iff_blank in H. vm_compute in H. discriminate H.
Defined.

(** X16. In the first version of [App] the message of the error goes to the error
    cell as it is. An error with an empty message therefore leaves a page that
    shows no error: the error display is not rendered and the welcome card is
    back. *)
Theorem AppText_empty_message_not_shown
    (orchestrator : jsstring -> Async LogisticsResult) (srv : Server)
    (st : AppText.WorkflowState) (calls : list Request) (err : JsError) :
  ~ blank (AppText.query st) ->
  (orchestrator (AppText.query st) srv calls).1 = Thrown err ->
  message err = [] ->
  let v := AppTextUI.render (AppText.handleSubmit orchestrator srv st calls).1 in
  AppTextUI.error_shown v = false /\
  AppTextUI.welcome_shown v = true /\
  AppTextUI.loading_shown v = false.
Proof.
  intros Hblank Hrun Hmsg. simpl.
  rewrite (AppText_handleSubmit_run _ _ _ _ Hblank). simpl.
  rewrite Hrun. simpl. rewrite Hmsg. repeat split.
Qed.

Lemma AppText_empty_message_not_shown_witness :
  let v :=
    AppTextUI.render
      (AppText.handleSubmit (fun _ => throw (new_Error [])) (healthy_server Null)
         (AppText.setQuery (lit "Delhi") AppText.initial) []).1 in
  AppTextUI.error_shown v = false /\
  AppTextUI.welcome_shown v = true /\
  AppTextUI.loading_shown v = false.
Proof.
  apply (AppText_empty_message_not_shown (fun _ => throw (new_Error []))
           (healthy_server Null) (AppText.setQuery (lit "Delhi") AppText.initial) []
           (new_Error [])).
  - exact not_blank_lit_Delhi.
  - reflexivity.
  - reflexivity.
Defined.

(** X17. In the first version of [App], a failed submit whose error has a
    message that is not empty ends on a page with that message in the error
    cell and the error display rendered, and with neither the welcome card,
    nor the results, nor the loading indicator. *)
Theorem AppText_failure_message_shown
    (orchestrator : jsstring -> Async LogisticsResult) (srv : Server)
    (st : AppText.WorkflowState) (calls : list Request) (err : JsError) :
  ~ blank (AppText.query st) ->
  (orchestrator (AppText.query st) srv calls).1 = Thrown err ->
  message err <> [] ->
  let st' := (AppText.handleSubmit orchestrator srv st calls).1 in
  let v := AppTextUI.render st' in
  AppText.error st' = Value (message err) /\
  AppTextUI.error_shown v = true /\
  AppTextUI.welcome_shown v = false /\
  AppTextUI.results_shown v = false /\
  AppTextUI.loading_shown v = false.
Proof.
  intros Hblank Hrun Hmsg. simpl.
  rewrite (AppText_handleSubmit_run _ _ _ _ Hblank). simpl.
  rewrite Hrun. simpl.
  destruct (message err) as [| c msg]; [congruence |]. repeat split.
Qed.

Lemma AppText_failure_message_shown_witness :
  let st' :=
    (AppText.handleSubmit FrontendApi.processLogisticsRequest
       (failing_server optimizer_unavailable)
       (AppText.setQuery (lit "Delhi") AppText.initial) []).1 in
  let v := AppTextUI.render st' in
  AppText.error st' = Value (lit "optimizer unavailable") /\
  AppTextUI.error_shown v = true /\
  AppTextUI.welcome_shown v = false /\
  AppTextUI.results_shown v = false /\
  AppTextUI.loading_shown v = false.
Proof.
  apply (AppText_failure_message_shown FrontendApi.processLogisticsRequest
           (failing_server optimizer_unavailable)
           (AppText.setQuery (lit "Delhi") AppText.initial) []
           (new_Error (lit "optimizer unavailable"))).
  - exact not_blank_lit_Delhi.
  - reflexivity.
  - discriminate.
Defined.

(** X18. [handleMapOptimization] has no gate of its own: for every list, the
    empty one and a single location included, it closes the map and sends one
    optimisation request. With the adapter of [src/services/api.js] the
    payload is the rewritten list, and when the service answers, the picked
    locations are shown as they were picked. *)
Theorem handleMapOptimization_no_gate (locations : list Location)
    (srv : Server) (st : AppMap.WorkflowState) (calls : list Request) :
  let run := AppMap.handleMapOptimization Api.optimizeRoute locations srv st calls in
  let payload := imap Api.optimizeRoute_entry locations in
  run.2 = calls ++ [PostOptimizeRoute payload] /\
  AppMap.showMap run.1 = false /\
  forall body,
    optimize_route_reply srv calls payload = Fulfilled body ->
    run.1 =
      {| AppMap.query := AppMap.query st;
         AppMap.loading := false;
         AppMap.error := Null;
         AppMap.extractedLocations := Value locations;
         AppMap.optimizationResult := body;
         AppMap.stage := results;
         AppMap.showMap := false |}.
Proof.
  simpl. rewrite AppMap_handleMapOptimization_run, Api_optimizeRoute_run. simpl.
  split; [reflexivity |].
  split.
  - destruct (optimize_route_reply srv calls _); reflexivity.
  - intros body ->. reflexivity.
Qed.

Lemma handleMapOptimization_no_gate_witness :
  (AppMap.handleMapOptimization Api.optimizeRoute [] (healthy_server Null)
     AppMap.initial []).2 = [PostOptimizeRoute []] /\
  AppMap.stage
    (AppMap.handleMapOptimization Api.optimizeRoute [locA] (healthy_server Null)
       AppMap.initial []).1 = results.
Proof.
  split.
  - apply (handleMapOptimization_no_gate [] (healthy_server Null) AppMap.initial []).
  - destruct (handleMapOptimization_no_gate [locA] (healthy_server Null)
                AppMap.initial []) as (_ & _ & Hstate).
    rewrite (Hstate _ eq_refl). reflexivity.
Defined.

(** X19. [handleReset] undoes a finished operation: after a submit with a query
    that is not blank, and after a map optimisation, it gives the first state
    of the page (in the second version, with the map as the submit left it).
    Resetting twice is resetting once. *)
Theorem handleReset_after_operation :
  (forall orchestrator srv (st : AppText.WorkflowState) calls,
     ~ blank (AppText.query st) ->
     AppText.handleReset (AppText.handleSubmit orchestrator srv st calls).1 =
       AppText.initial) /\
  (forall orchestrator srv (st : AppMap.WorkflowState) calls,
     ~ blank (AppMap.query st) ->
     AppMap.handleReset (AppMap.handleSubmit orchestrator srv st calls).1 =
       AppMap.setShowMap (AppMap.showMap st) AppMap.initial) /\
  (forall optimizeRoute locations srv (st : AppMap.WorkflowState) calls,
     AppMap.handleReset
       (AppMap.handleMapOptimization optimizeRoute locations srv st calls).1 =
       AppMap.initial) /\
  (forall st, AppText.handleReset (AppText.handleReset st) = AppText.handleReset st) /\
  (forall st, AppMap.handleReset (AppMap.handleReset st) = AppMap.handleReset st).
Proof.
  repeat apply conj.
  - intros orchestrator srv st calls Hblank.
    rewrite (AppText_handleSubmit_run _ _ _ _ Hblank). simpl.
    destruct (orchestrator _ srv calls).1; reflexivity.
  - intros orchestrator srv st calls Hblank.
    rewrite (AppMap_handleSubmit_run _ _ _ _ Hblank). simpl.
    destruct (orchestrator _ srv calls).1; reflexivity.
  - intros optimizeRoute locations srv st calls.
    rewrite AppMap_handleMapOptimization_run. simpl.
    destruct (optimizeRoute locations srv calls).1; reflexivity.
  - reflexivity.
  - reflexivity.
Qed.

Lemma handleReset_after_operation_witness :
  AppText.handleReset
    (AppText.handleSubmit FrontendApi.processLogisticsRequest
       (healthy_server (Value [locA; locB]))
       (AppText.setQuery (lit "Delhi") AppText.initial) []).1 = AppText.initial.
Proof.
  apply (proj1 handleReset_after_operation FrontendApi.processLogisticsRequest
           (healthy_server (Value [locA; locB]))
           (AppText.setQuery (lit "Delhi") AppText.initial) []).
  exact not_blank_lit_Delhi.
Defined.

(** ** The page of the first version and its controls *)

Lemma button_enabled_not_blank (st : AppText.WorkflowState) :
  AppTextUI.enabled st AppTextUI.ClickSubmit = true ->
  ~ blank (AppText.query st) /\ AppText.loading st = false.
Proof.
  unfold AppTextUI.enabled, AppTextUI.render, QueryInput.button_disabled. simpl.
  intros H. apply negb_true_iff, orb_false_iff in H as [Hloading Htrim].
  split; [| exact Hloading].
  intros Hblank. apply trim_falsy_iff_blank in Hblank. congruence.
Qed.

(** X20. The button of [QueryInput] can be clicked only when nothing is loading
    and the query is not blank; a click therefore never ends in the
    "Please enter a logistics request" branch: the orchestrator is called
    with the query. *)
Theorem click_submit_calls_orchestrator
    (orchestrator : jsstring -> Async LogisticsResult) (srv : Server)
    (st : AppText.WorkflowState) (calls : list Request) :
  AppTextUI.enabled st AppTextUI.ClickSubmit = true ->
  ~ blank (AppText.query st) /\
  AppText.loading st = false /\
  (AppTextUI.handle orchestrator srv AppTextUI.ClickSubmit (st, calls)).2 =
    (orchestrator (AppText.query st) srv calls).2 /\
  AppText.stage (AppTextUI.handle orchestrator srv AppTextUI.ClickSubmit (st, calls)).1 =
    match (orchestrator (AppText.query st) srv calls).1 with
    | Resolved _ => results
    | Thrown _ => input
    end.
Proof.
  intros Henabled.
  destruct (button_enabled_not_blank st Henabled) as [Hblank Hloading].
  split; [exact Hblank |]. split; [exact Hloading |].
  unfold AppTextUI.handle, AppTextUI.submit. simpl.
  rewrite (AppText_handleSubmit_run _ _ _ _ Hblank). simpl.
  split; [reflexivity |].
  destruct (orchestrator _ srv calls).1; reflexivity.
Qed.

Lemma click_submit_calls_orchestrator_witness :
  (AppTextUI.handle FrontendApi.processLogisticsRequest
     (healthy_server (Value [locA; locB])) AppTextUI.ClickSubmit
     (AppText.setQuery (lit "Delhi") AppText.initial, [])).2 =
    [PostExtractSequence (lit "Delhi"); PostOptimizeRoute [locA; locB]].
Proof.
  destruct (click_submit_calls_orchestrator FrontendApi.processLogisticsRequest
              (healthy_server (Value [locA; locB]))
              (AppText.setQuery (lit "Delhi") AppText.initial) [] eq_refl)
    as (_ & _ & Hcalls & _).
  rewrite Hcalls. reflexivity.
Defined.

(** X21. The keyboard path of [QueryInput] has no such test. Enter without Shift
    submits whatever the query is: with a blank query, for which the button is
    disabled, it sets the error "Please enter a logistics request" and sends
    nothing. Shift+Enter and every other key leave the page as it is. *)
Theorem key_press_submit
    (orchestrator : jsstring -> Async LogisticsResult) (srv : Server)
    (e : QueryInput.KeyboardEvent) (st : AppText.WorkflowState)
    (calls : list Request) :
  (QueryInput.key e <> lit "Enter" \/ QueryInput.shiftKey e = true ->
   AppTextUI.handle orchestrator srv (AppTextUI.KeyPress e) (st, calls) = (st, calls)) /\
  (QueryInput.key e = lit "Enter" -> QueryInput.shiftKey e = false ->
   blank (AppText.query st) ->
   AppTextUI.button_disabled (AppTextUI.render st) = true /\
   AppTextUI.handle orchestrator srv (AppTextUI.KeyPress e) (st, calls) =
     (AppText.setError (Value (lit "Please enter a logistics request")) st, calls)).
Proof.
  unfold AppTextUI.handle, QueryInput.handleKeyPress. split.
  - intros [Hkey | Hshift].
    + rewrite (bool_decide_eq_false_2 _ Hkey). reflexivity.
    + rewrite Hshift, andb_false_r. reflexivity.
  - intros Hkey Hshift Hblank.
    rewrite (bool_decide_eq_true_2 _ Hkey), Hshift. simpl.
    apply trim_falsy_iff_blank in Hblank.
    unfold AppTextUI.submit, AppText.handleSubmit, QueryInput.button_disabled. simpl.
    rewrite Hblank, orb_true_r. split; reflexivity.
Qed.

Lemma key_press_submit_witness :
  AppTextUI.handle FrontendApi.processLogisticsRequest (healthy_server Null)
    (AppTextUI.KeyPress {| QueryInput.key := lit "Enter"; QueryInput.shiftKey := true |})
    (AppText.setQuery (lit "Delhi") AppText.initial, []) =
    (AppText.setQuery (lit "Delhi") AppText.initial, []) /\
  AppTextUI.handle FrontendApi.processLogisticsRequest (healthy_server Null)
    (AppTextUI.KeyPress {| QueryInput.key := lit "Enter"; QueryInput.shiftKey := false |})
    (AppText.initial, []) =
    (AppText.setError (Value (lit "Please enter a logistics request")) AppText.initial,
     []).
Proof.
  split.
  - apply (proj1 (key_press_submit FrontendApi.processLogisticsRequest
                    (healthy_server Null)
                    {| QueryInput.key := lit "Enter"; QueryInput.shiftKey := true |}
                    (AppText.setQuery (lit "Delhi") AppText.initial) [])).
    right. reflexivity.
  - apply (proj2 (key_press_submit FrontendApi.processLogisticsRequest
                    (healthy_server Null)
                    {| QueryInput.key := lit "Enter"; QueryInput.shiftKey := false |}
                    AppText.initial [])).
    + reflexivity.
    + reflexivity.
    + constructor.
Defined.

(** X22. While a request is under way the page offers nothing to do: the text area
    and the button are disabled, the examples, the reset button and the error
    display are not rendered; only the loading indicator is. No event of the
    page can therefore fall between the start and the end of a submit. *)
Theorem in_flight_nothing_enabled (st : AppText.WorkflowState) :
  (forall ev, AppTextUI.enabled (AppTextUI.in_flight st) ev = false) /\
  AppTextUI.render (AppTextUI.in_flight st) =
    {| AppTextUI.textarea_disabled := true;
       AppTextUI.button_disabled := true;
       AppTextUI.examples_shown := false;
       AppTextUI.locations_shown := false;
       AppTextUI.reset_shown := false;
       AppTextUI.error_shown := false;
       AppTextUI.loading_shown := true;
       AppTextUI.results_shown := false;
       AppTextUI.welcome_shown := false |}.
Proof.
  split; [intros [value | e | | i | |]; reflexivity | reflexivity].
Qed.

Lemma submit_at_rest (srv : Server) (st : AppText.WorkflowState)
    (calls : list Request) :
  AppTextUI.at_rest st ->
  AppTextUI.at_rest
    (AppText.handleSubmit FrontendApi.processLogisticsRequest srv st calls).1.
Proof.
  intros [Hloading Hstage Hinput Hresults].
  destruct (string_falsy (trim (AppText.query st))) eqn:Htrim.
  - unfold AppText.handleSubmit. rewrite Htrim. simpl.
    constructor; simpl; assumption.
  - assert (Hblank : ~ blank (AppText.query st)).
    { intros H. apply trim_falsy_iff_blank in H. congruence. }
    rewrite (AppText_handleSubmit_run _ _ _ _ Hblank),
      FrontendApi_processLogisticsRequest_run. simpl.
    assert (Hfailed : forall msg : jsstring,
              AppTextUI.at_rest
                (AppText.setLoading false
                   (AppText.setStage input
                      (AppText.setError (Value msg) (AppTextUI.in_flight st))))).
    { intros msg. constructor; simpl; try discriminate; eauto. }
    destruct (extract_sequence_reply srv calls _) as [ex | failed]; simpl.
    + destruct (parsed_locations ex) as [| | [| loc rest]] eqn:Hlocs; simpl;
        try apply Hfailed.
      destruct (optimize_route_reply srv _ _) as [body | failed]; simpl.
      * constructor; simpl; try discriminate; eauto.
      * apply Hfailed.
    + apply Hfailed.
Qed.

Lemma handle_at_rest (srv : Server) (ev : AppTextUI.Event)
    (st : AppText.WorkflowState) (calls : list Request) :
  AppTextUI.at_rest st ->
  AppTextUI.at_rest
    (AppTextUI.handle FrontendApi.processLogisticsRequest srv ev (st, calls)).1.
Proof.
  intros Hrest. destruct ev as [value | e | | i | |]; simpl.
  - destruct Hrest. constructor; assumption.
  - unfold QueryInput.handleKeyPress.
    destruct (_ && _); [apply submit_at_rest |]; assumption.
  - apply submit_at_rest, Hrest.
  - destruct (AppTextUI.exampleQueries !! i); [| assumption].
    destruct Hrest. constructor; assumption.
  - destruct Hrest as [Hloading _ _ _].
    constructor; simpl; try discriminate; eauto.
  - destruct Hrest. constructor; simpl; assumption.
Qed.

Lemma reachable_at_rest (srv : Server) (w : AppTextUI.World) :
  AppTextUI.reachable FrontendApi.processLogisticsRequest srv w ->
  AppTextUI.at_rest w.1.
Proof.
  induction 1 as [| [st calls] ev Hreach IH Henabled].
  - constructor; simpl; try discriminate; eauto.
  - apply handle_at_rest, IH.
Qed.

(** X23. An invariant of the page of the first version, run with the orchestrator
    of [frontend/src/services/api.js]: after every sequence of events on
    controls that are enabled, nothing is loading, the stage is [input] or
    [results], the stage [input] has no results in its cells, the stage
    [results] has a list of at least one location. *)
Theorem page_invariant (srv : Server) (w : AppTextUI.World) :
  AppTextUI.reachable FrontendApi.processLogisticsRequest srv w ->
  AppTextUI.at_rest w.1.
Proof.
  intros Hreach.
  induction Hreach as [| [st calls] ev Hreach IH Henabled].
  - constructor; simpl; try discriminate; eauto.
  - apply handle_at_rest. exact IH.
Qed.

(** X24. What the user sees on such a page: never the loading indicator; the
    results exactly when the reset button is there, and then the list of
    locations too; the examples exactly when the reset button is not; and
    always something in the right panel: the welcome card, the results or an
    error, the welcome card never together with the results or an error. *)
Theorem page_view_at_rest (srv : Server) (w : AppTextUI.World) :
  AppTextUI.reachable FrontendApi.processLogisticsRequest srv w ->
  let v := AppTextUI.render w.1 in
  AppTextUI.loading_shown v = false /\
  AppTextUI.textarea_disabled v = false /\
  AppTextUI.results_shown v = AppTextUI.reset_shown v /\
  AppTextUI.examples_shown v = negb (AppTextUI.reset_shown v) /\
  (AppTextUI.results_shown v = true -> AppTextUI.locations_shown v = true) /\
  AppTextUI.welcome_shown v || AppTextUI.results_shown v || AppTextUI.error_shown v = true /\
  AppTextUI.welcome_shown v && (AppTextUI.results_shown v || AppTextUI.error_shown v) = false.
Proof.
  intros Hreach.
  destruct (reachable_at_rest srv w Hreach)
    as [Hloading Hstage Hinput Hresults].
  destruct w as [st calls]. simpl in *.
  unfold QueryInput.textarea_disabled. rewrite Hloading.
  destruct (AppText.stage st) eqn:Hst; simpl; try congruence.
  - repeat split; try discriminate.
    + destruct (truthy_string (AppText.error st)); reflexivity.
    + destruct (truthy_string (AppText.error st)); reflexivity.
  - destruct (Hresults eq_refl) as (locations & -> & _). repeat split.
Qed.

(** The user types "Delhi" and clicks the button; two locations come back. *)
Lemma typed_and_clicked_reachable :
  AppTextUI.reachable FrontendApi.processLogisticsRequest
    (healthy_server (Value [locA; locB]))
    (AppTextUI.handle FrontendApi.processLogisticsRequest
       (healthy_server (Value [locA; locB])) AppTextUI.ClickSubmit
       (AppTextUI.handle FrontendApi.processLogisticsRequest
          (healthy_server (Value [locA; locB]))
          (AppTextUI.ChangeQuery (lit "Delhi")) (AppText.initial, []))).
Proof.
  apply AppTextUI.reachable_event; [| reflexivity].
  apply AppTextUI.reachable_event; [| reflexivity].
  apply AppTextUI.reachable_initial.
Defined.

Lemma page_invariant_witness :
  AppTextUI.at_rest
    (AppTextUI.handle FrontendApi.processLogisticsRequest
       (healthy_server (Value [locA; locB])) AppTextUI.ClickSubmit
       (AppTextUI.handle FrontendApi.processLogisticsRequest
          (healthy_server (Value [locA; locB]))
          (AppTextUI.ChangeQuery (lit "Delhi")) (AppText.initial, []))).1.
Proof.
  apply (page_invariant (healthy_server (Value [locA; locB])) _
           typed_and_clicked_reachable).
Defined.

Lemma page_view_at_rest_witness :
  let v :=
    AppTextUI.render
      (AppTextUI.handle FrontendApi.processLogisticsRequest
         (healthy_server (Value [locA; locB])) AppTextUI.ClickSubmit
         (AppTextUI.handle FrontendApi.processLogisticsRequest
            (healthy_server (Value [locA; locB]))
            (AppTextUI.ChangeQuery (lit "Delhi")) (AppText.initial, []))).1 in
  AppTextUI.loading_shown v = false /\
  AppTextUI.textarea_disabled v = false /\
  AppTextUI.results_shown v = AppTextUI.reset_shown v /\
  AppTextUI.examples_shown v = negb (AppTextUI.reset_shown v) /\
  (AppTextUI.results_shown v = true -> AppTextUI.locations_shown v = true) /\
  AppTextUI.welcome_shown v || AppTextUI.results_shown v || AppTextUI.error_shown v = true /\
  AppTextUI.welcome_shown v && (AppTextUI.results_shown v || AppTextUI.error_shown v) = false.
Proof.
  apply (page_view_at_rest (healthy_server (Value [locA; locB])) _
           typed_and_clicked_reachable).
Defined.

(** X25. Clicking an example puts its text in the query, and none of the examples
    is blank: when nothing is loading, the button is enabled right after the
    click, and a submit sends that text for extraction. *)
Theorem example_click_then_submit (srv : Server) (i : nat) (example : jsstring)
    (st : AppText.WorkflowState) (calls : list Request) :
  AppTextUI.exampleQueries !! i = Some example ->
  AppText.loading st = false ->
  let w := AppTextUI.handle FrontendApi.processLogisticsRequest srv
             (AppTextUI.ClickExample i) (st, calls) in
  AppText.query w.1 = example /\
  AppTextUI.enabled w.1 AppTextUI.ClickSubmit = true /\
  exists more,
    (AppTextUI.handle FrontendApi.processLogisticsRequest srv AppTextUI.ClickSubmit w).2 =
      calls ++ PostExtractSequence example :: more.
Proof.
  intros Hexample Hloading. simpl. rewrite Hexample. simpl.
  assert (Htrim : string_falsy (trim example) = false).
  { destruct i as [| [| [| i]]]; simpl in Hexample; try discriminate;
      injection Hexample as <-; vm_compute; reflexivity. }
  assert (Hblank : ~ blank example).
  { intros H. apply trim_falsy_iff_blank in H. congruence. }
  split; [reflexivity |].
  split.
  - unfold AppTextUI.enabled, AppTextUI.render, QueryInput.button_disabled. simpl.
    rewrite Hloading, Htrim. reflexivity.
  - unfold AppTextUI.submit. simpl.
    rewrite AppText_handleSubmit_run by exact Hblank. simpl.
    rewrite FrontendApi_processLogisticsRequest_run. simpl.
    destruct (extract_sequence_reply srv calls _) as [ex | failed];
      [| eexists; reflexivity].
    destruct (parsed_locations ex) as [| | [| loc rest]];
      try (eexists; reflexivity).
    eexists. simpl. rewrite <- app_assoc. reflexivity.
Qed.

Lemma example_click_then_submit_witness :
  let w := AppTextUI.handle FrontendApi.processLogisticsRequest
             (healthy_server (Value [locA; locB]))
             (AppTextUI.ClickExample 2) (AppText.initial, []) in
  AppText.query w.1 =
    lit "Begin at Pune, then go to Hyderabad, after that Jaipur, and finally return to Pune" /\
  AppTextUI.enabled w.1 AppTextUI.ClickSubmit = true /\
  exists more,
    (AppTextUI.handle FrontendApi.processLogisticsRequest
       (healthy_server (Value [locA; locB])) AppTextUI.ClickSubmit w).2 =
      [] ++ PostExtractSequence
              (lit "Begin at Pune, then go to Hyderabad, after that Jaipur, and finally return to Pune")
            :: more.
Proof.
  apply (example_click_then_submit (healthy_server (Value [locA; locB])) 2
           (lit "Begin at Pune, then go to Hyderabad, after that Jaipur, and finally return to Pune")
           AppText.initial []).
  - reflexivity.
  - reflexivity.
Defined.
